(** * qualipy: a shallow embedding of [source/qualipy.py]

    The module is a Python 2 client for the Qualtrics v3 API.  Its class
    [Qualtrics] submits a response export, polls the export job, downloads
    and unzips the result, turns it into a pandas table and writes tables
    and survey definitions to disk.

    Python values are modelled by inductive types, exceptions by a result
    type, the object [self] and the effects on the outside world by an
    explicit state, and the [while] loop by a fuel-indexed fixpoint. *)

From Stdlib Require Import ZArith List String Ascii Bool Arith Lia.
Import ListNotations.

Set Warnings "-register-all".

Local Open Scope list_scope.
Local Open Scope string_scope.

(** ** Python values *)

(** Values produced by [json.loads].  Numbers are kept by their integer
    value: the program inspects a number only in the test
    [percentComplete == 100]. *)
Inductive json : Type :=
| JNull
| JBool (b : bool)
| JNum (n : Z)
| JStr (s : string)
| JList (l : list json)
| JDict (d : list (string * json)).

(** The attributes of a [requests.Response] the program reads. *)
Record Response : Type := mkResponse {
  status_code : Z;
  content : string
}.

(** The exceptions that reach the caller. *)
Inductive exn : Type :=
| HTTPError (r : Response)
| RequestException
| KeyError (key : string)
| IndexError
| TypeError
| ValueError (msg : string)
| UnboundLocalError (var : string)
| IOError
| OSError
| BadZipfile.

Inductive result (A : Type) : Type :=
| Ok (a : A)
| Raise (e : exn).
Arguments Ok {A} a.
Arguments Raise {A} e.

(** ** Strings *)

(** [s[-1]]: the last character, [IndexError] on the empty string. *)
Fixpoint str_last (s : string) : result ascii :=
  match s with
  | EmptyString => Raise IndexError
  | String c EmptyString => Ok c
  | String _ rest => str_last rest
  end.

Definition slash : ascii := "/"%char.

(** [s[-1] != c] *)
Definition last_differs (s : string) (c : ascii) : result bool :=
  match str_last s with
  | Ok x => Ok (negb (Ascii.eqb x c))
  | Raise e => Raise e
  end.

Definition lower_char (c : ascii) : ascii :=
  let n := nat_of_ascii c in
  if (65 <=? n)%nat && (n <=? 90)%nat then ascii_of_nat (n + 32) else c.

(** [s.lower()] *)
Fixpoint lower (s : string) : string :=
  match s with
  | EmptyString => EmptyString
  | String c rest => String (lower_char c) (lower rest)
  end.

(** [s.split('/')[0]] *)
Fixpoint split_head (s : string) : string :=
  match s with
  | EmptyString => EmptyString
  | String c rest => if Ascii.eqb c slash then EmptyString else String c (split_head rest)
  end.

(** ** Dictionaries *)

Fixpoint dict_get {V : Type} (k : string) (d : list (string * V)) : option V :=
  match d with
  | [] => None
  | (k', v) :: rest => if String.eqb k k' then Some v else dict_get k rest
  end.

(** [d[k] = v] *)
Fixpoint dict_set {V : Type} (k : string) (v : V) (d : list (string * V)) : list (string * V) :=
  match d with
  | [] => [(k, v)]
  | (k', v') :: rest =>
      if String.eqb k k' then (k, v) :: rest else (k', v') :: dict_set k v rest
  end.

(** [x[k]] for a string [k]: [KeyError] on a dictionary without the key,
    [TypeError] on anything that is not a dictionary. *)
Definition getitem (x : json) (k : string) : result json :=
  match x with
  | JDict d => match dict_get k d with
               | Some v => Ok v
               | None => Raise (KeyError k)
               end
  | _ => Raise TypeError
  end.

(** ** The client object *)

(** [path_to_output_files] is tested with [isinstance(..., str)], so the
    attribute can hold something that is not a string. *)
Inductive pathval : Type :=
| PathStr (s : string)
| PathOther.

Record Qualtrics : Type := mkQualtrics {
  api_token_header : list (string * string);
  project_name : string;
  base_url : string;
  path_to_output_files : pathval;
  use_timestamps : bool
}.

(** [Qualtrics.__init__] *)
Definition __init__ (api_token project_name base_url : string)
    (path_to_output_files : pathval) (content_type : string)
    (use_timestamps_for_filenames : bool) : result Qualtrics :=
  let hdr := [("x-api-token", api_token);
              ("Content-Type", "application/" ++ content_type)] in
  match last_differs base_url slash with
  | Raise e => Raise e
  | Ok differs =>
      let base_url := if differs then base_url ++ "/" else base_url in
      Ok (mkQualtrics hdr project_name base_url path_to_output_files
            use_timestamps_for_filenames)
  end.

(** ** Tables

    A model of the part of pandas the program uses.  A [DataFrame] is a
    list of column labels and a list of rows; a cell is a Python object or
    [NaN], the mark pandas puts where a record has no value for a column.
    Values are kept as the objects they are: the dtype pandas infers for a
    column is not modelled. *)

Inductive label : Type :=
| LInt (n : nat)
| LStr (s : string).

Inductive cell : Type :=
| NaN
| Val (v : json).

Record DataFrame : Type := mkDataFrame {
  columns : list label;
  rows : list (list cell)
}.

(** The keys of all records, each once, in the order they are first seen:
    [nodup] keeps the last occurrence of a key, so it is run on the
    reversed list of keys. *)
Definition union_keys (records : list (list (string * json))) : list string :=
  rev (nodup string_dec (rev (List.concat (map (map fst) records)))).

Definition record_row (keys : list string) (r : list (string * json)) : list cell :=
  map (fun k => match dict_get k r with Some v => Val v | None => NaN end) keys.

(** [pd.DataFrame(records)] for a list of dictionaries. *)
Definition DataFrame_of_records (records : list (list (string * json))) : DataFrame :=
  let keys := union_keys records in
  mkDataFrame (map LStr keys) (map (record_row keys) records).

(** [pd.DataFrame(d.items())]: a list of pairs gives the columns [0] and
    [1]; the empty list gives the table without columns. *)
Definition DataFrame_of_items (items : list (string * json)) : DataFrame :=
  mkDataFrame
    (match items with [] => [] | _ :: _ => [LInt 0; LInt 1] end)
    (map (fun kv => [Val (JStr (fst kv)); Val (snd kv)]) items).

(** The dictionaries of a list, when all its elements are dictionaries. *)
Fixpoint as_records (l : list json) : option (list (list (string * json))) :=
  match l with
  | [] => Some []
  | JDict d :: rest =>
      match as_records rest with
      | Some rs => Some (d :: rs)
      | None => None
      end
  | _ :: _ => None
  end.

(** [df.applymap(f)] *)
Definition applymap (f : cell -> cell) (df : DataFrame) : DataFrame :=
  mkDataFrame (columns df) (map (map f) (rows df)).

(** [lambda x: x.replace('', ' ') if x == '' else x]; on the empty string
    [replace] returns the one-space string. *)
Definition blank_empty (x : cell) : cell :=
  match x with
  | Val (JStr EmptyString) => Val (JStr " ")
  | _ => x
  end.

(** The cell in row [i] (from 0) of the [j]-th column. *)
Definition cell_at (df : DataFrame) (i j : nat) : option cell :=
  match nth_error (rows df) i with
  | Some row => nth_error row j
  | None => None
  end.

Definition empty_cell : cell := Val (JStr EmptyString).
Definition blank_cell : cell := Val (JStr " ").

(** Python lists and dictionaries among the values of [json.loads]. *)
Definition is_list_or_dict (j : json) : bool :=
  match j with
  | JList _ | JDict _ => true
  | _ => false
  end.

(** What [create_df_from_api_data] can be given. *)
Inductive payload : Type :=
| PJson (j : json)
| PFrame (df : DataFrame).

(** ** Dates *)

Record datetime : Type := mkDatetime {
  year : nat; month : nat; day : nat;
  hour : nat; minute : nat; second : nat
}.

Definition digit (n : nat) : ascii := ascii_of_nat (48 + n mod 10).

Definition two_digits (n : nat) : string :=
  String (digit (n / 10)) (String (digit n) EmptyString).

Definition four_digits (n : nat) : string :=
  two_digits (n / 100) ++ two_digits n.

(** [strftime("%Y%m%d")], for the years 1900 to 9999 of [datetime.now()] *)
Definition strftime_Ymd (d : datetime) : string :=
  four_digits (year d) ++ two_digits (month d) ++ two_digits (day d).

(** [strftime("%H%M%S")] *)
Definition strftime_HMS (d : datetime) : string :=
  two_digits (hour d) ++ two_digits (minute d) ++ two_digits (second d).

(** ** The outside world *)

Definition headers : Type := list (string * string).

(** What the program does to the outside world, in the order it does it. *)
Inductive event : Type :=
| EvPost (url : string) (body : json) (hdr : headers)
| EvGet (url : string) (hdr : headers)
| EvSleep (secs : Z)
| EvPrint (line : string)
| EvMkdir (path : string)
| EvOpen (path : string)
| EvDump (data : json) (path : string)
| EvClose (path : string)
| EvFeather (df : DataFrame) (path : string).

(** The world answers every call as a function of what happened before:
    the server, the clock and the file system are anything deterministic. *)
Record World : Type := mkWorld {
  requests_post : list event -> string -> json -> headers -> result Response;
  requests_get : list event -> string -> headers -> result Response;
  datetime_now : list event -> datetime;
  os_path_realpath : string -> string;
  os_path_abspath : string -> string;
  os_path_isdir : list event -> string -> bool;
  os_path_exists : list event -> string -> bool;
  os_mkdir : list event -> string -> result unit;
  file_open : list event -> string -> result unit;
  json_dump : list event -> json -> string -> result unit;
  file_close : list event -> string -> result unit;
  feather_write_dataframe : list event -> DataFrame -> string -> result unit
}.

(** An opened [zipfile.ZipFile]: the keys of its [NameToInfo] dictionary,
    in the order [keys()] lists them, and [read]. *)
Record ZipFile : Type := mkZipFile {
  NameToInfo_keys : list string;
  zip_read : string -> result string
}.

(** The decoders of the libraries, functions of their input alone;
    [DataFrame_of_list] is [pd.DataFrame] on a list that has an element
    which is not a dictionary. *)
Record Library : Type := mkLibrary {
  json_loads : string -> result json;
  zipfile_ZipFile : string -> result ZipFile;
  DataFrame_of_list : list json -> result DataFrame
}.

(** ** Computations

    A computation runs on the object [self] and the history of events and
    ends with a value or an exception; [None] says that the fuel given to
    the polling loop ran out. *)

Record state : Type := mkState {
  self : Qualtrics;
  history : list event
}.

Definition M (A : Type) : Type := state -> option (result A * state).

Definition ret {A : Type} (a : A) : M A := fun s => Some (Ok a, s).

Definition raise {A : Type} (e : exn) : M A := fun s => Some (Raise e, s).

Definition out_of_fuel {A : Type} : M A := fun _ => None.

Definition bind {A B : Type} (m : M A) (k : A -> M B) : M B := fun s =>
  match m s with
  | Some (Ok a, s') => k a s'
  | Some (Raise e, s') => Some (Raise e, s')
  | None => None
  end.

Declare Scope comp_scope.
Delimit Scope comp_scope with comp.
Notation "x <- m ;; k" := (bind m (fun x => k))
  (at level 61, m at next level, right associativity) : comp_scope.
Notation "m ;; k" := (bind m (fun _ => k))
  (at level 61, right associativity) : comp_scope.
Local Open Scope comp_scope.

Definition lift {A : Type} (r : result A) : M A := fun s => Some (r, s).

Definition get_self : M Qualtrics := fun s => Some (Ok (self s), s).

Definition set_path_to_output_files (p : pathval) : M unit := fun s =>
  let q := self s in
  Some (Ok tt, mkState (mkQualtrics (api_token_header q) (project_name q) (base_url q)
                          p (use_timestamps q)) (history s)).

(** An effect: the event is recorded and the world answers from the
    history before it. *)
Definition call {A : Type} (ev : event) (answer : list event -> result A) : M A :=
  fun s => Some (answer (history s), mkState (self s) (history s ++ [ev])).

(** A query of the world. *)
Definition ask {A : Type} (answer : list event -> A) : M A :=
  fun s => Some (Ok (answer (history s)), s).

(** [try: body / except: handler] *)
Definition try_except {A : Type} (body : M A) (handler : exn -> M A) : M A := fun s =>
  match body s with
  | Some (Raise e, s') => handler e s'
  | other => other
  end.

(** [requests.Response.ok] and [raise_for_status], as the requests library
    defines them: a status from 400 to 599 is an error. *)
Definition is_error_status (r : Response) : bool :=
  ((400 <=? status_code r) && (status_code r <? 600))%Z.

Definition ok (r : Response) : bool := negb (is_error_status r).

Definition raise_for_status (r : Response) : M unit :=
  if is_error_status r then raise (HTTPError r) else ret tt.

(** [time.sleep] refuses a negative length. *)
Definition time_sleep (secs : Z) : M unit :=
  if (secs <? 0)%Z then raise IOError else call (EvSleep secs) (fun _ => Ok tt).

Definition print (line : string) : M unit :=
  call (EvPrint line) (fun _ => Ok tt).

(** [value == 100] *)
Definition equals_100 (value : json) : bool :=
  match value with
  | JNum n => (n =? 100)%Z
  | _ => false
  end.

(** [if key in kwargs: form_fields[key] = kwargs[key]] *)
Definition copy_kwarg (key : string) (kwargs form_fields : list (string * json))
    : list (string * json) :=
  match dict_get key kwargs with
  | Some v => dict_set key v form_fields
  | None => form_fields
  end.

(** the same with [else: form_fields[key] = default] *)
Definition copy_kwarg_or (key : string) (default : json)
    (kwargs form_fields : list (string * json)) : list (string * json) :=
  match dict_get key kwargs with
  | Some v => dict_set key v form_fields
  | None => dict_set key default form_fields
  end.

(** ** The methods of [Qualtrics] *)

Section Methods.

Variable lib : Library.
Variable w : World.

(** [Qualtrics.setup_output_filename] *)
Definition setup_output_filename (base_path survey_name type extension : string)
    : M string :=
  q <- get_self ;;
  let sub_folder := base_path ++ project_name q in
  present <- ask (fun h => os_path_exists w h sub_folder) ;;
  (if negb present
   then call (EvMkdir sub_folder) (fun h => os_mkdir w h sub_folder)
   else ret tt) ;;
  today <- (if negb (use_timestamps q)
            then now <- ask (datetime_now w) ;; ret (strftime_Ymd now)
            else now <- ask (datetime_now w) ;;
                 ret (strftime_Ymd now ++ "_" ++ strftime_HMS now)) ;;
  let path := sub_folder ++ "/" ++ today ++ "_" ++ survey_name ++ "_" ++ type
              ++ "." ++ extension in
  ret path.

(** [with open(path, 'w') as outfile: body]: the file is closed when the
    body ends, also by an exception; an exception of [close] wins. *)
Definition with_open {A : Type} (path : string) (body : M A) : M A := fun s =>
  match call (EvOpen path) (fun h => file_open w h path) s with
  | Some (Ok _, s1) =>
      match body s1 with
      | Some (r, s2) =>
          match call (EvClose path) (fun h => file_close w h path) s2 with
          | Some (Ok _, s3) => Some (r, s3)
          | Some (Raise e, s3) => Some (Raise e, s3)
          | None => None
          end
      | None => None
      end
  | Some (Raise e, s1) => Some (Raise e, s1)
  | None => None
  end.

(** [Qualtrics.write_json_to_disk] *)
Definition write_json_to_disk (json_data : json) (full_file_path : string) : M unit :=
  with_open full_file_path
    (try_except
       (call (EvDump json_data full_file_path)
             (fun h => json_dump w h json_data full_file_path) ;;
        print (os_path_abspath w full_file_path ++ " " ++ "written to disk"))
       (fun _ => raise (ValueError ("Unable to write json output to disk at "
                                    ++ os_path_abspath w full_file_path)))).

(** The table [create_df_from_api_data] builds before it blanks the empty
    strings: the [if]/[elif] chain on the type of [json_data]. *)
Definition to_frame (json_data : payload) : result DataFrame :=
  match json_data with
  | PJson (JList l) =>
      match as_records l with
      | Some records => Ok (DataFrame_of_records records)
      | None => DataFrame_of_list lib l
      end
  | PJson (JDict d) => Ok (DataFrame_of_items d)
  | PFrame df => Ok df
  | PJson _ =>
      Raise (ValueError "Need to add a new type of dataframe object value to the code.")
  end.

(** [Qualtrics.create_df_from_api_data] *)
Definition create_df_from_api_data (json_data : payload) : result DataFrame :=
  match to_frame json_data with
  | Ok response_data_pd => Ok (applymap blank_empty response_data_pd)
  | Raise e => Raise e
  end.

Definition invalid_path_message : string :=
  "path_to_files argument is invalid.  Please check the supplied path, where the output"
  ++ "files should be written to disk.".

(** [Qualtrics.write_df_to_disk] *)
Definition write_df_to_disk (dataframe : DataFrame) (survey_name url_suffix : string)
    : M string :=
  q <- get_self ;;
  match path_to_output_files q with
  | PathOther => raise (ValueError "path_to_files argument must be a string")
  | PathStr path_to_files =>
      isdir <- ask (fun h => os_path_isdir w h (os_path_realpath w path_to_files)) ;;
      path_to_files <-
        (if negb isdir then raise (ValueError invalid_path_message)
         else differs <- lift (last_differs path_to_files slash) ;;
              ret (if differs then path_to_files ++ "/" else path_to_files)) ;;
      path <- setup_output_filename path_to_files survey_name
                (split_head url_suffix) "feather" ;;
      try_except
        (call (EvFeather dataframe path)
              (fun h => feather_write_dataframe w h dataframe path) ;;
         print (os_path_abspath w path ++ " " ++ "written to disk"))
        (fun _ => raise (ValueError "Unable to write feather output to disk")) ;;
      ret path
  end.

(** [Qualtrics.get_survey] *)
Definition get_survey (survey_token survey_name : string) (write_to_disk : bool)
    : M json :=
  q <- get_self ;;
  let full_url := base_url q ++ "surveys/" ++ survey_token in
  response_data <- call (EvGet full_url (api_token_header q))
                        (fun h => requests_get w h full_url (api_token_header q)) ;;
  parsed <- lift (json_loads lib (content response_data)) ;;
  response_data_json <- lift (getitem parsed "result") ;;
  (if write_to_disk then
     match path_to_output_files q with
     | PathOther => raise (ValueError "path_to_files argument must be a string")
     | PathStr p =>
         isdir <- ask (fun h => os_path_isdir w h (os_path_realpath w p)) ;;
         base_path <-
           (if negb isdir then raise (ValueError invalid_path_message)
            else differs <- lift (last_differs p slash) ;;
                 if differs
                 then set_path_to_output_files (PathStr (p ++ "/")) ;; ret (p ++ "/")
                 else ret p) ;;
         path <- setup_output_filename base_path survey_name "survey" "json" ;;
         write_json_to_disk response_data_json path
     end
   else print ("Retrieved survey data for " ++ survey_name)) ;;
  ret response_data_json.

(** The [while] loop of [get_responseexports].  [response_status_json] is
    unbound until the first status arrives; the loop ends by [break] with a
    complete status, or when [sleep_counter_ms] has passed [max_wait_ms]. *)
Fixpoint poll (fuel : nat) (export_status_url : string) (hdr : headers)
    (max_wait_ms sleep_ms sleep_counter_ms : Z) (response_status_json : option json)
    : M (option json) :=
  match fuel with
  | O => out_of_fuel
  | S fuel' =>
      if (sleep_counter_ms <=? max_wait_ms)%Z then
        r <- call (EvGet export_status_url hdr)
                  (fun h => requests_get w h export_status_url hdr) ;;
        status <- lift (json_loads lib (content r)) ;;
        res <- lift (getitem status "result") ;;
        percent <- lift (getitem res "percentComplete") ;;
        if equals_100 percent then ret (Some status)
        else
          time_sleep sleep_ms ;;
          poll fuel' export_status_url hdr max_wait_ms sleep_ms
               (sleep_counter_ms + sleep_ms)%Z (Some status)
      else ret response_status_json
  end.

(** [form_fields] of [get_responseexports] *)
Definition export_form_fields (survey_token result_format : string)
    (kwargs : list (string * json)) : list (string * json) :=
  let form_fields := [("surveyId", JStr survey_token);
                      ("format", JStr (lower result_format))] in
  let form_fields := copy_kwarg "lastResponseId" kwargs form_fields in
  let form_fields := copy_kwarg "startDate" kwargs form_fields in
  let form_fields := copy_kwarg "endDate" kwargs form_fields in
  let form_fields := copy_kwarg "limit" kwargs form_fields in
  let form_fields := copy_kwarg "includedQuestionIds" kwargs form_fields in
  let form_fields := copy_kwarg_or "useLabels" (JBool true) kwargs form_fields in
  copy_kwarg_or "useLocalTime" (JBool false) kwargs form_fields.

(** The body of [if export_response_handle.ok:]; it gives the new
    [url_suffix] and [response_data]. *)
Definition fetch_export (fuel : nat) (url_suffix : string)
    (export_response_handle : Response) (max_wait_ms sleep_ms : Z)
    : M (string * string) :=
  q <- get_self ;;
  let sleep_counter_ms := 0%Z in
  differs <- lift (last_differs url_suffix slash) ;;
  let url_suffix := if differs then url_suffix ++ "/" else url_suffix in
  posted <- lift (json_loads lib (content export_response_handle)) ;;
  res <- lift (getitem posted "result") ;;
  id <- lift (getitem res "id") ;;
  export_status_url <-
    match id with
    | JStr id => ret (base_url q ++ lower url_suffix ++ id)
    | _ => raise TypeError
    end ;;
  last <- poll fuel export_status_url (api_token_header q) max_wait_ms sleep_ms
            sleep_counter_ms None ;;
  response_status_json <-
    match last with
    | Some status => ret status
    | None => raise (UnboundLocalError "response_status_json")
    end ;;
  res <- lift (getitem response_status_json "result") ;;
  file <- lift (getitem res "file") ;;
  r <- match file with
       | JStr file_url => call (EvGet file_url (api_token_header q))
                               (fun h => requests_get w h file_url (api_token_header q))
       | _ => raise RequestException
       end ;;
  z <- lift (zipfile_ZipFile lib (content r)) ;;
  name <- match NameToInfo_keys z with
          | first :: _ => ret first
          | [] => raise IndexError
          end ;;
  response_data <- lift (zip_read z name) ;;
  ret (url_suffix, response_data).

(** [Qualtrics.get_responseexports] *)
Definition get_responseexports (fuel : nat) (survey_token survey_name : string)
    (write_to_disk and_get_survey : bool) (result_format : string)
    (max_wait_ms sleep_ms : Z) (kwargs : list (string * json))
    : M (json * string) :=
  q <- get_self ;;
  let url_suffix := "responseexports" in
  let form_fields := export_form_fields survey_token result_format kwargs in
  let full_url := base_url q ++ url_suffix in
  export_response_handle <-
    call (EvPost full_url (JDict form_fields) (api_token_header q))
         (fun h => requests_post w h full_url (JDict form_fields) (api_token_header q)) ;;
  fetched <-
    (if ok export_response_handle
     then fetch_export fuel url_suffix export_response_handle max_wait_ms sleep_ms
     else raise_for_status export_response_handle ;;
          raise (UnboundLocalError "response_data")) ;;
  let (url_suffix, response_data) := fetched in
  parsed <- lift (json_loads lib response_data) ;;
  response_data_json <- lift (getitem parsed "responses") ;;
  filename <-
    (if write_to_disk then
       dataframe <- lift (create_df_from_api_data (PJson response_data_json)) ;;
       write_df_to_disk dataframe survey_name url_suffix
     else
       print ("Retrieved responseexports data for " ++ survey_name) ;;
       ret " ") ;;
  (if and_get_survey
   then get_survey survey_token survey_name write_to_disk ;; ret tt
   else ret tt) ;;
  ret (response_data_json, filename).

End Methods.

(** ** Measures on histories *)

(** The events that stay on the machine: no request and no sleep. *)
Definition local_event (e : event) : Prop :=
  match e with
  | EvPost _ _ _ | EvGet _ _ | EvSleep _ => False
  | _ => True
  end.

(** The events of the polling loop for a status URL and an interval. *)
Definition poll_event (url : string) (hdr : headers) (sleep_ms : Z) (e : event) : Prop :=
  e = EvGet url hdr \/ e = EvSleep sleep_ms.

Fixpoint count_gets (evs : list event) : nat :=
  match evs with
  | [] => 0
  | EvGet _ _ :: rest => S (count_gets rest)
  | _ :: rest => count_gets rest
  end.

(** The total length of the sleeps. *)
Fixpoint slept (evs : list event) : Z :=
  match evs with
  | [] => 0
  | EvSleep secs :: rest => secs + slept rest
  | _ :: rest => slept rest
  end.

(** A computation that always ends, and adds only events of one kind. *)
Definition emits {A : Type} (P : event -> Prop) (m : M A) : Prop :=
  forall s, exists out s' evs,
    m s = Some (out, s') /\ history s' = (history s ++ evs)%list /\ Forall P evs.

(** A run that ends, by a value or an exception, with the fuel it has. *)
Definition terminates {A : Type} (m : M A) (s : state) : Prop :=
  exists out s', m s = Some (out, s').

Definition any_event (e : event) : Prop := True.

(** The number of status requests the loop can still make. *)
Definition polls_left (max_wait_ms sleep_ms sleep_counter_ms : Z) : nat :=
  Z.to_nat ((max_wait_ms - sleep_counter_ms) / sleep_ms + 1).

(** The stem of a file name. *)
Definition stamp (with_time : bool) (now : datetime) : string :=
  if with_time then strftime_Ymd now ++ "_" ++ strftime_HMS now else strftime_Ymd now.

(** ** Output paths *)

(** The path of an artifact in the words of the specification:
    [<base>/<project_name>/<date[_time]>_<survey_name>_<artifact_type>.<extension>]. *)
Definition artifact_path (base project today survey_name artifact_type extension : string)
    : string :=
  base ++ "/" ++ project ++ "/" ++ today ++ "_" ++ survey_name ++ "_" ++ artifact_type
  ++ "." ++ extension.

Definition same_day (d1 d2 : datetime) : Prop :=
  year d1 = year d2 /\ month d1 = month d2 /\ day d1 = day d2.

(** The history once [setup_output_filename] has seen to the folder. *)
Definition after_mkdir (w : World) (sub_folder : string) (h : list event) : list event :=
  if os_path_exists w h sub_folder then h else h ++ [EvMkdir sub_folder].

(** The instant [setup_output_filename] reads from the clock. *)
Definition instant_read (w : World) (q : Qualtrics) (base_path : string) (h : list event)
    : datetime :=
  datetime_now w (after_mkdir w (base_path ++ project_name q) h).

(** ** A sample service

    A library and a family of worlds on which the methods can be run: the
    submission is answered with a given status, the export job reports
    completion from a given status request on (or never), and opening a
    file for writing can be made to fail. *)

Definition sample_base : string := "https://co1.qualtrics.com/API/v3/".
Definition sample_file_url : string := "https://co1.qualtrics.com/API/v3/file/ES_1".

Definition sample_status (percent : Z) : json :=
  JDict [("result", JDict [("percentComplete", JNum percent);
                           ("file", JStr sample_file_url)])].

Definition sample_responses : json :=
  JList [JDict [("q1", JStr "a")];
         JDict [("q1", JStr "b"); ("q2", JStr EmptyString)];
         JDict [("q2", JStr "c")]].

Definition sample_survey : json := JDict [("name", JStr "Survey 1")].

Definition sample_library : Library :=
  mkLibrary
    (fun body =>
       if body =? "posted" then Ok (JDict [("result", JDict [("id", JStr "ES_1")])])
       else if body =? "pending" then Ok (sample_status 50)
       else if body =? "complete" then Ok (sample_status 100)
       else if body =? "export" then Ok (JDict [("responses", sample_responses)])
       else if body =? "survey" then Ok (JDict [("result", sample_survey)])
       else Raise (ValueError "No JSON object could be decoded"))
    (fun body =>
       if body =? "archive"
       then Ok (mkZipFile ["ES_1.json"] (fun _ => Ok "export"))
       else Raise BadZipfile)
    (fun _ => Raise (ValueError "DataFrame constructor not properly called!")).

Record scenario : Type := mkScenario {
  post_status : Z;
  ready_after : option nat;
  open_fails : bool;
  dump_fails : bool
}.

Definition made_dir (path : string) (e : event) : bool :=
  match e with
  | EvMkdir p => p =? path
  | _ => false
  end.

Definition sample_world (sc : scenario) : World :=
  mkWorld
    (fun _ _ _ _ => Ok (mkResponse (post_status sc) "posted"))
    (fun h url _ =>
       if url =? sample_file_url then Ok (mkResponse 200 "archive")
       else if url =? sample_base ++ "surveys/SV_1" then Ok (mkResponse 200 "survey")
       else match ready_after sc with
            | Some n => if (n <=? count_gets h)%nat
                        then Ok (mkResponse 200 "complete")
                        else Ok (mkResponse 200 "pending")
            | None => Ok (mkResponse 200 "pending")
            end)
    (fun _ => mkDatetime 2016 11 4 9 5 7)
    (fun p => p)
    (fun p => "/home/user/" ++ p)
    (fun _ p => p =? "out")
    (fun h p => existsb (made_dir p) h)
    (fun _ _ => Ok tt)
    (fun _ _ => if open_fails sc then Raise IOError else Ok tt)
    (fun _ _ _ => if dump_fails sc then Raise IOError else Ok tt)
    (fun _ _ => Ok tt)
    (fun _ _ _ => Ok tt).

Definition sample_client : Qualtrics :=
  mkQualtrics [("x-api-token", "tok"); ("Content-Type", "application/json")]
    "Project 1" sample_base (PathStr "out") false.

Definition sample_state : state := mkState sample_client [].

(** ** Further measures *)

(** The keys [get_responseexports] can put into [form_fields]. *)
Definition optional_form_keys : list string :=
  ["lastResponseId"; "startDate"; "endDate"; "limit"; "includedQuestionIds"].

Definition form_keys : list string :=
  "surveyId" :: "format" :: "useLabels" :: "useLocalTime" :: optional_form_keys.

(** A status that ends the polling loop by [break]. *)
Definition is_complete (status : json) : bool :=
  match getitem status "result" with
  | Ok res =>
      match getitem res "percentComplete" with
      | Ok percent => equals_100 percent
      | Raise _ => false
      end
  | Raise _ => false
  end.

Fixpoint count_sleeps (evs : list event) : nat :=
  match evs with
  | [] => 0
  | EvSleep _ :: rest => S (count_sleeps rest)
  | _ :: rest => count_sleeps rest
  end.

(** A computation that leaves the attributes of [self] as they are. *)
Definition preserves_self {A : Type} (m : M A) : Prop :=
  forall s out s', m s = Some (out, s') -> self s' = self s.

(** [q] with another [path_to_output_files]. *)
Definition with_path (q : Qualtrics) (p : pathval) : Qualtrics :=
  mkQualtrics (api_token_header q) (project_name q) (base_url q) p (use_timestamps q).

(** [p] with the separator the callers of [setup_output_filename] add. *)
Definition with_separator (p : string) (last : ascii) : string :=
  if Ascii.eqb last slash then p else p ++ "/".

(** ** The files the methods write *)

(** The project folder for an output path [p] whose last character is [c]. *)
Definition project_folder (q : Qualtrics) (p : string) (c : ascii) : string :=
  with_separator p c ++ project_name q.

(** The file [setup_output_filename] names in a folder, called at history [h]. *)
Definition artifact_file (w : World) (q : Qualtrics) (folder : string) (h : list event)
    (survey_name type extension : string) : string :=
  folder ++ "/" ++ stamp (use_timestamps q) (datetime_now w (after_mkdir w folder h))
  ++ "_" ++ survey_name ++ "_" ++ type ++ "." ++ extension.

(** What a successful [write_json_to_disk] does. *)
Definition json_written (w : World) (data : json) (path : string) : list event :=
  [EvOpen path; EvDump data path;
   EvPrint (os_path_abspath w path ++ " " ++ "written to disk"); EvClose path].

(** What a successful write of a table by feather does. *)
Definition table_written (w : World) (df : DataFrame) (path : string) : list event :=
  [EvFeather df path; EvPrint (os_path_abspath w path ++ " " ++ "written to disk")].

(** * Properties *)

Lemma str_last_app_char (s : string) (c : ascii) :
  str_last (s ++ String c EmptyString) = Ok c.
Proof.
  induction s as [|a s IH]; simpl; [reflexivity|].
  rewrite IH. destruct s; reflexivity.
Qed.

Lemma str_last_nonempty (s : string) :
  s <> EmptyString -> exists c, str_last s = Ok c.
Proof.
  induction s as [|a s IH]; intros Hne; [congruence|].
  destruct s as [|b s'].
  - exists a. reflexivity.
  - destruct IH as [c Hc]; [discriminate|]. exists c. exact Hc.
Qed.

(** C10.  A client is built exactly from the non-empty base URLs: for a
    non-empty [base_url] the constructor returns an object whose base URL
    ends with a slash, and for the empty string it raises [IndexError]. *)
Theorem init_requires_nonempty_base_url
    (api_token project base : string) (path : pathval) (ctype : string) (ts : bool) :
  (base <> EmptyString ->
     exists q, __init__ api_token project base path ctype ts = Ok q
               /\ str_last (base_url q) = Ok slash
               /\ (base_url q = base \/ base_url q = base ++ "/"))
  /\ __init__ api_token project EmptyString path ctype ts = Raise IndexError.
Proof.
  split; [|reflexivity].
  intros Hne. destruct (str_last_nonempty base Hne) as [c Hc].
  unfold __init__, last_differs. rewrite Hc.
  destruct (Ascii.eqb c slash) eqn:E; simpl.
  - eexists; split; [reflexivity|]. simpl.
    apply Ascii.eqb_eq in E. subst c. split; [exact Hc | left; reflexivity].
  - eexists; split; [reflexivity|]. simpl.
    split; [apply str_last_app_char | right; reflexivity].
Qed.

Lemma init_requires_nonempty_base_url_witness :
  "https://co1.qualtrics.com/API/v3" <> EmptyString
  /\ exists q, __init__ "tok" "Project 1" "https://co1.qualtrics.com/API/v3"
                 (PathStr "../data_out") "json" false = Ok q
               /\ str_last (base_url q) = Ok slash
               /\ (base_url q = "https://co1.qualtrics.com/API/v3"
                   \/ base_url q = "https://co1.qualtrics.com/API/v3" ++ "/").
Proof.
  split; [discriminate|].
  apply (proj1 (init_requires_nonempty_base_url "tok" "Project 1"
                  "https://co1.qualtrics.com/API/v3" (PathStr "../data_out") "json" false)).
  discriminate.
Defined.

(** ** Running computations *)

Local Open Scope comp_scope.

Lemma bind_ok {A B : Type} (m : M A) (k : A -> M B) (s s' : state) (a : A) :
  m s = Some (Ok a, s') -> bind m k s = k a s'.
Proof. intros H. unfold bind. rewrite H. reflexivity. Qed.

Lemma bind_lift_ok {A B : Type} (r : result A) (k : A -> M B) (s : state) (a : A) :
  r = Ok a -> bind (lift r) k s = k a s.
Proof. intros ->. reflexivity. Qed.

(** ** Submission *)

(** C2 as stated fails.  The method tests [ok], which is false for a
    status from 400 to 599 only: a submission answered with 304, which is
    no success status, is taken as accepted, and the job is polled and its
    file downloaded. *)
Lemma unsuccessful_status_below_400_is_polled :
  ~ (200 <= 304 < 300)%Z
  /\ ok (mkResponse 304 "posted") = true
  /\ exists s',
       get_responseexports sample_library
         (sample_world (mkScenario 304 (Some 0%nat) false false))
         10 "SV_1" "Survey 1" false false "json" 20000 1 [] sample_state
       = Some (Ok (sample_responses, " "), s')
       /\ count_gets (history s') = 2%nat.
Proof.
  split; [lia|]. split; [reflexivity|].
  eexists. split; [vm_compute; reflexivity | reflexivity].
Qed.

(** C2, amended.  When the response to the submission has an error status
    (400 to 599, where [ok] is false), [get_responseexports] raises the
    [HTTPError] of [raise_for_status], which carries that response, and the
    only request it has issued is the [POST]: no [GET], to a polling URL or
    any other, is in the history. *)
Theorem failed_submission_raises_before_polling
    (lib : Library) (w : World) (fuel : nat) (survey_token survey_name : string)
    (write_to_disk and_get_survey : bool) (result_format : string)
    (max_wait_ms sleep_ms : Z) (kwargs : list (string * json))
    (s : state) (resp : Response) :
  let full_url := base_url (self s) ++ "responseexports" in
  let form := JDict (export_form_fields survey_token result_format kwargs) in
  let hdr := api_token_header (self s) in
  requests_post w (history s) full_url form hdr = Ok resp ->
  ok resp = false ->
  get_responseexports lib w fuel survey_token survey_name write_to_disk and_get_survey
    result_format max_wait_ms sleep_ms kwargs s
  = Some (Raise (HTTPError resp),
          mkState (self s) (history s ++ [EvPost full_url form hdr])).
Proof.
  intros full_url form hdr Hpost Hok.
  unfold get_responseexports, bind, get_self, call. simpl.
  fold full_url form hdr. rewrite Hpost, Hok.
  unfold raise_for_status. unfold ok in Hok.
  apply negb_false_iff in Hok. rewrite Hok. reflexivity.
Qed.

(** ** What a computation adds to the history *)

Section Emits.

Context {A : Type} (P : event -> Prop).

Lemma emits_ret (a : A) : emits P (ret a).
Proof.
  intros s. exists (Ok a), s, []. rewrite app_nil_r. repeat split. constructor.
Qed.

Lemma emits_raise (e : exn) : emits P (@raise A e).
Proof.
  intros s. exists (Raise e), s, []. rewrite app_nil_r. repeat split. constructor.
Qed.

Lemma emits_lift (r : result A) : emits P (lift r).
Proof.
  intros s. exists r, s, []. rewrite app_nil_r. repeat split. constructor.
Qed.

Lemma emits_ask (answer : list event -> A) : emits P (ask answer).
Proof.
  intros s. eexists _, s, []. rewrite app_nil_r. repeat split. constructor.
Qed.

Lemma emits_call (ev : event) (answer : list event -> result A) :
  P ev -> emits P (call ev answer).
Proof.
  intros Hev s. eexists _, _, [ev]. unfold call. repeat split.
  constructor; [exact Hev | constructor].
Qed.

Lemma emits_bind {B : Type} (m : M B) (k : B -> M A) :
  emits P m -> (forall b, emits P (k b)) -> emits P (bind m k).
Proof.
  intros Hm Hk s. destruct (Hm s) as (out & s1 & evs1 & Hrun & Hh & Hall).
  unfold bind. rewrite Hrun. destruct out as [b|e].
  - destruct (Hk b s1) as (out2 & s2 & evs2 & Hrun2 & Hh2 & Hall2).
    exists out2, s2, (evs1 ++ evs2)%list. rewrite Hrun2, Hh2, Hh, app_assoc.
    repeat split. apply Forall_app. split; assumption.
  - exists (Raise e), s1, evs1. repeat split; assumption.
Qed.

Lemma emits_try_except (body : M A) (handler : exn -> M A) :
  emits P body -> (forall e, emits P (handler e)) -> emits P (try_except body handler).
Proof.
  intros Hb Hh s. destruct (Hb s) as (out & s1 & evs1 & Hrun & Hh1 & Hall).
  unfold try_except. rewrite Hrun. destruct out as [a|e].
  - exists (Ok a), s1, evs1. repeat split; assumption.
  - destruct (Hh e s1) as (out2 & s2 & evs2 & Hrun2 & Hh2 & Hall2).
    exists out2, s2, (evs1 ++ evs2)%list. rewrite Hrun2, Hh2, Hh1, app_assoc.
    repeat split. apply Forall_app. split; assumption.
Qed.

Lemma emits_with_open (w : World) (path : string) (body : M A) :
  P (EvOpen path) -> P (EvClose path) -> emits P body -> emits P (with_open w path body).
Proof.
  intros Hopen Hclose Hb s. unfold with_open, call.
  destruct (file_open w (history s) path) as [[]|e].
  - destruct (Hb (mkState (self s) (history s ++ [EvOpen path])))
      as (out & s2 & evs & Hrun & Hh & Hall).
    rewrite Hrun. simpl in Hh.
    assert (Hevs : Forall P ((EvOpen path :: evs) ++ [EvClose path])%list).
    { apply Forall_app. split; constructor; auto. }
    destruct (file_close w (history s2) path) as [[]|e].
    + eexists _, _, _. split; [reflexivity|]. simpl. rewrite Hh, <- !app_assoc.
      split; [reflexivity | exact Hevs].
    + eexists _, _, _. split; [reflexivity|]. simpl. rewrite Hh, <- !app_assoc.
      split; [reflexivity | exact Hevs].
  - eexists _, _, [EvOpen path]. repeat split. constructor; auto.
Qed.

End Emits.

Lemma emits_get_self (P : event -> Prop) : emits P get_self.
Proof.
  intros s. eexists _, s, []. rewrite app_nil_r. repeat split. constructor.
Qed.

Lemma emits_set_path (P : event -> Prop) (p : pathval) :
  emits P (set_path_to_output_files p).
Proof.
  intros s. eexists _, _, []. split; [reflexivity|]. simpl. rewrite app_nil_r.
  split; [reflexivity | constructor].
Qed.

Lemma emits_print (P : event -> Prop) (line : string) :
  P (EvPrint line) -> emits P (print line).
Proof. intros H. apply emits_call. exact H. Qed.

(** One step of a proof that a method adds only events of a kind. *)
Ltac emits_step :=
  match goal with
  | |- emits _ (bind _ _) => apply emits_bind; [|intros]
  | |- emits _ (ret _) => apply emits_ret
  | |- emits _ (raise _) => apply emits_raise
  | |- emits _ (lift _) => apply emits_lift
  | |- emits _ (ask _) => apply emits_ask
  | |- emits _ get_self => apply emits_get_self
  | |- emits _ (set_path_to_output_files _) => apply emits_set_path
  | |- emits _ (print _) => apply emits_print; exact I
  | |- emits _ (call _ _) => apply emits_call; exact I
  | |- emits _ (try_except _ _) => apply emits_try_except; [|intros]
  | |- emits _ (with_open _ _ _) => apply emits_with_open; [exact I | exact I |]
  | |- emits _ (if ?b then _ else _) => destruct b
  | |- emits _ (match ?x with _ => _ end) => destruct x
  end.

Lemma emits_setup_output_filename (w : World) (base_path survey_name type extension : string) :
  emits local_event (setup_output_filename w base_path survey_name type extension).
Proof. unfold setup_output_filename. repeat emits_step. Qed.

Lemma emits_write_json_to_disk (w : World) (json_data : json) (path : string) :
  emits local_event (write_json_to_disk w json_data path).
Proof. unfold write_json_to_disk. repeat emits_step. Qed.

Lemma emits_write_df_to_disk (w : World) (df : DataFrame) (survey_name url_suffix : string) :
  emits local_event (write_df_to_disk w df survey_name url_suffix).
Proof.
  unfold write_df_to_disk.
  repeat first [apply emits_setup_output_filename | emits_step].
Qed.

Lemma emits_after_call {A B : Type} (P : event -> Prop) (ev : event)
    (answer : list event -> result A) (k : A -> M B) (s : state) :
  (forall a, emits P (k a)) ->
  exists out s' evs,
    bind (call ev answer) k s = Some (out, s')
    /\ history s' = (history s ++ ev :: evs)%list /\ Forall P evs.
Proof.
  intros Hk. unfold bind, call. destruct (answer (history s)) as [a|e].
  - destruct (Hk a (mkState (self s) (history s ++ [ev])))
      as (out & s' & evs & Hrun & Hh & Hall).
    exists out, s', evs. rewrite Hrun. simpl in Hh. rewrite Hh, <- app_assoc.
    repeat split. exact Hall.
  - exists (Raise e), (mkState (self s) (history s ++ [ev])), []. repeat split.
    constructor.
Qed.

(** A computation that ends by returning [v] gives [v] or an exception. *)
Lemma then_ret_yields {A B : Type} (m : M A) (v : B) (s s' : state) (out : result B) :
  bind m (fun _ => ret v) s = Some (out, s') -> out = Ok v \/ exists e, out = Raise e.
Proof.
  unfold bind, ret. destruct (m s) as [[[a|e] s1]|]; intros H; inversion H; eauto.
Qed.

(** ** The survey definition *)

Lemma get_survey_trace (lib : Library) (w : World) (survey_token survey_name : string)
    (write_to_disk : bool) (s : state) :
  exists out s' evs,
    get_survey lib w survey_token survey_name write_to_disk s = Some (out, s')
    /\ history s' = (history s ++ EvGet (base_url (self s) ++ "surveys/" ++ survey_token)
                                       (api_token_header (self s)) :: evs)%list
    /\ Forall local_event evs.
Proof.
  unfold get_survey. rewrite (bind_ok get_self _ s s (self s)) by reflexivity.
  apply emits_after_call. intros resp.
  repeat first [apply emits_setup_output_filename | apply emits_write_json_to_disk
               | emits_step].
Qed.

Lemma get_survey_result (lib : Library) (w : World) (survey_token survey_name : string)
    (write_to_disk : bool) (s s' : state) (out : result json)
    (resp : Response) (parsed v : json) :
  requests_get w (history s) (base_url (self s) ++ "surveys/" ++ survey_token)
    (api_token_header (self s)) = Ok resp ->
  json_loads lib (content resp) = Ok parsed ->
  getitem parsed "result" = Ok v ->
  get_survey lib w survey_token survey_name write_to_disk s = Some (out, s') ->
  (out = Ok v \/ exists e, out = Raise e) /\ (write_to_disk = false -> out = Ok v).
Proof.
  intros Hget Hparse Hres. unfold get_survey.
  rewrite (bind_ok get_self _ s s (self s)) by reflexivity.
  erewrite bind_ok by (unfold call; rewrite Hget; reflexivity).
  rewrite (bind_lift_ok _ _ _ parsed Hparse), (bind_lift_ok _ _ _ v Hres).
  intros Hrun. split.
  - eapply then_ret_yields. exact Hrun.
  - intros ->. cbv in Hrun. inversion Hrun. reflexivity.
Qed.

Lemma failed_submission_raises_before_polling_witness :
  get_responseexports sample_library (sample_world (mkScenario 401 (Some 0%nat) false false))
    20 "SV_1" "Survey 1" false false "json" 20000 1 [] sample_state
  = Some (Raise (HTTPError (mkResponse 401 "posted")),
          mkState sample_client
            [EvPost (sample_base ++ "responseexports")
                    (JDict (export_form_fields "SV_1" "json" []))
                    (api_token_header sample_client)])
  /\ count_gets [EvPost (sample_base ++ "responseexports")
                   (JDict (export_form_fields "SV_1" "json" []))
                   (api_token_header sample_client)] = 0%nat.
Proof.
  split; [|reflexivity].
  apply (failed_submission_raises_before_polling sample_library
           (sample_world (mkScenario 401 (Some 0%nat) false false))
           20 "SV_1" "Survey 1" false false "json" 20000 1 [] sample_state
           (mkResponse 401 "posted")); reflexivity.
Defined.

(** ** The polling loop *)

Section Polling.

Variable lib : Library.
Variable w : World.
Variable url : string.
Variable hdr : headers.
Variable max_wait_ms sleep_ms : Z.

Lemma polls_left_step (c : Z) :
  (0 < sleep_ms)%Z -> (c <= max_wait_ms)%Z ->
  polls_left max_wait_ms sleep_ms c = S (polls_left max_wait_ms sleep_ms (c + sleep_ms)).
Proof.
  intros Hpos Hle. unfold polls_left.
  replace (max_wait_ms - (c + sleep_ms))%Z with (max_wait_ms - c + (-1) * sleep_ms)%Z by lia.
  rewrite Z.div_add by lia.
  assert (0 <= (max_wait_ms - c) / sleep_ms)%Z by (apply Z.div_pos; lia).
  lia.
Qed.

(** With a positive interval the loop ends within [polls_left] rounds:
    it issues at most that many status requests and sleeps at most one
    interval beyond the time that was left. *)
Lemma poll_terminates (fuel : nat) :
  (0 < sleep_ms)%Z ->
  forall (c : Z) (last : option json) (s : state),
    (polls_left max_wait_ms sleep_ms c < fuel)%nat ->
    exists out s' evs,
      poll lib w fuel url hdr max_wait_ms sleep_ms c last s = Some (out, s')
      /\ history s' = (history s ++ evs)%list
      /\ Forall (poll_event url hdr sleep_ms) evs
      /\ (count_gets evs <= polls_left max_wait_ms sleep_ms c)%nat
      /\ (slept evs <= Z.max 0 (max_wait_ms + sleep_ms - c))%Z.
Proof.
  intros Hpos. induction fuel as [|fuel IH]; intros c last s Hfuel; [lia|].
  simpl. destruct (Z.leb_spec c max_wait_ms) as [Hle|Hgt].
  - rewrite (polls_left_step c Hpos Hle) in *.
    assert (Hnil : forall (out : result (option json)) s1,
      s1 = mkState (self s) (history s ++ [EvGet url hdr]) ->
      exists out' s' evs,
        Some (out, s1) = Some (out', s')
        /\ history s' = (history s ++ evs)%list
        /\ Forall (poll_event url hdr sleep_ms) evs
        /\ (count_gets evs <= S (polls_left max_wait_ms sleep_ms (c + sleep_ms)))%nat
        /\ (slept evs <= Z.max 0 (max_wait_ms + sleep_ms - c))%Z).
    { intros out s1 ->. exists out, (mkState (self s) (history s ++ [EvGet url hdr])),
        [EvGet url hdr]. simpl. repeat split; try lia.
      constructor; [left; reflexivity | constructor]. }
    unfold bind at 1. unfold call at 1.
    destruct (requests_get w (history s) url hdr) as [r|e]; [|apply Hnil; reflexivity].
    unfold bind at 1, lift at 1.
    destruct (json_loads lib (content r)) as [status|e]; [|apply Hnil; reflexivity].
    unfold bind at 1, lift at 1.
    destruct (getitem status "result") as [res|e]; [|apply Hnil; reflexivity].
    unfold bind at 1, lift at 1.
    destruct (getitem res "percentComplete") as [percent|e]; [|apply Hnil; reflexivity].
    destruct (equals_100 percent); [apply Hnil; reflexivity|].
    unfold bind at 1, time_sleep.
    destruct (Z.ltb_spec sleep_ms 0) as [Hneg|_]; [lia|].
    unfold call at 1. simpl history. simpl self.
    destruct (IH (c + sleep_ms)%Z (Some status)
                (mkState (self s) ((history s ++ [EvGet url hdr]) ++ [EvSleep sleep_ms])))
      as (out & s' & evs & Hrun & Hh & Hall & Hcount & Hslept); [lia|].
    exists out, s', (EvGet url hdr :: EvSleep sleep_ms :: evs).
    rewrite Hrun, Hh. simpl. rewrite <- !app_assoc. simpl.
    repeat split; try lia.
    constructor; [left; reflexivity|]. constructor; [right; reflexivity | exact Hall].
  - exists (Ok last), s, []. rewrite app_nil_r. simpl. repeat split; try lia. constructor.
Qed.

End Polling.

(** A server that never reports completion, polled without sleeping. *)
Lemma poll_without_sleep_runs_out (fuel : nat) :
  forall (last : option json) (s : state),
    poll sample_library (sample_world (mkScenario 200 None false false)) fuel
      (sample_base ++ "responseexports/ES_1") (api_token_header sample_client)
      20000 0 0 last s = None.
Proof.
  induction fuel as [|fuel IH]; intros last s; [reflexivity|].
  simpl. unfold bind at 1. unfold call at 1.
  change (requests_get _ (history s) _ _) with (@Ok Response (mkResponse 200 "pending")).
  cbv beta iota. unfold bind at 1. simpl lift.
  apply IH.
Qed.

Lemma bind_none {A B : Type} (m : M A) (k : A -> M B) (s : state) :
  m s = None -> bind m k s = None.
Proof. intros H. unfold bind. rewrite H. reflexivity. Qed.

Lemma get_responseexports_without_sleep_runs_out (fuel : nat) :
  get_responseexports sample_library (sample_world (mkScenario 200 None false false))
    fuel "SV_1" "Survey 1" false false "json" 20000 0 [] sample_state = None.
Proof.
  unfold get_responseexports.
  rewrite (bind_ok get_self _ _ sample_state sample_client) by reflexivity.
  erewrite bind_ok by reflexivity.
  apply bind_none. change (ok _) with true. cbv iota.
  unfold fetch_export.
  rewrite (bind_ok get_self _ _ _ sample_client) by reflexivity.
  do 4 (erewrite bind_lift_ok by reflexivity).
  erewrite bind_ok by reflexivity.
  apply bind_none. apply poll_without_sleep_runs_out.
Qed.

(** ** Termination of the methods *)

Lemma emits_terminates {A : Type} (P : event -> Prop) (m : M A) (s : state) :
  emits P m -> terminates m s.
Proof. intros H. destruct (H s) as (out & s' & _ & Hrun & _). exists out, s'. exact Hrun. Qed.

Lemma terminates_bind {A B : Type} (m : M A) (k : A -> M B) (s : state) :
  terminates m s ->
  (forall a s1, m s = Some (Ok a, s1) -> terminates (k a) s1) ->
  terminates (bind m k) s.
Proof.
  intros (out & s1 & Hrun) Hk. unfold terminates, bind. rewrite Hrun.
  destruct out as [a|e]; [apply (Hk a s1 Hrun) | eauto].
Qed.

Lemma emits_weaken {A : Type} (P Q : event -> Prop) (m : M A) :
  (forall e, P e -> Q e) -> emits P m -> emits Q m.
Proof.
  intros HPQ Hm s. destruct (Hm s) as (out & s' & evs & Hrun & Hh & Hall).
  exists out, s', evs. repeat split; try assumption.
  eapply Forall_impl; [exact HPQ | exact Hall].
Qed.

Lemma emits_get_survey (lib : Library) (w : World) (survey_token survey_name : string)
    (write_to_disk : bool) :
  emits any_event (get_survey lib w survey_token survey_name write_to_disk).
Proof.
  intros s.
  destruct (get_survey_trace lib w survey_token survey_name write_to_disk s)
    as (out & s' & evs & Hrun & Hh & Hall).
  eexists out, s', _. repeat split; [exact Hrun | exact Hh |].
  apply Forall_forall. intros; exact I.
Qed.

Section Termination.

Variable lib : Library.
Variable w : World.

Lemma fetch_export_terminates (fuel : nat) (url_suffix : string) (resp : Response)
    (max_wait_ms sleep_ms : Z) (s : state) :
  (0 < sleep_ms)%Z ->
  (polls_left max_wait_ms sleep_ms 0 < fuel)%nat ->
  terminates (fetch_export lib w fuel url_suffix resp max_wait_ms sleep_ms) s.
Proof.
  intros Hpos Hfuel. unfold fetch_export.
  apply terminates_bind; [eapply emits_terminates, (emits_get_self any_event)|].
  intros q s1 _.
  repeat (apply terminates_bind;
          [eapply emits_terminates, (emits_lift any_event) | intros ? ? _]).
  apply terminates_bind.
  { eapply (emits_terminates any_event). destruct a2; emits_step. }
  intros export_status_url s6 _.
  apply terminates_bind.
  { destruct (poll_terminates lib w export_status_url (api_token_header q)
                max_wait_ms sleep_ms fuel Hpos 0%Z None s6 Hfuel)
      as (out & s' & _ & Hrun & _).
    exists out, s'. exact Hrun. }
  intros last s7 _.
  eapply (emits_terminates any_event).
  repeat first [emits_step | exact I].
Qed.

Lemma get_responseexports_terminates (fuel : nat) (survey_token survey_name : string)
    (write_to_disk and_get_survey : bool) (result_format : string)
    (max_wait_ms sleep_ms : Z) (kwargs : list (string * json)) (s : state) :
  (0 < sleep_ms)%Z ->
  (polls_left max_wait_ms sleep_ms 0 < fuel)%nat ->
  terminates (get_responseexports lib w fuel survey_token survey_name write_to_disk
                and_get_survey result_format max_wait_ms sleep_ms kwargs) s.
Proof.
  intros Hpos Hfuel. unfold get_responseexports.
  apply terminates_bind; [eapply emits_terminates, (emits_get_self any_event)|].
  intros q s1 _.
  apply terminates_bind; [eapply emits_terminates, (emits_call any_event); exact I|].
  intros resp s2 _.
  apply terminates_bind.
  { destruct (ok resp).
    - apply fetch_export_terminates; assumption.
    - eapply (emits_terminates any_event). unfold raise_for_status.
      repeat emits_step. }
  intros [url_suffix response_data] s3 _.
  eapply (emits_terminates any_event).
  repeat first [ apply emits_get_survey
               | apply (emits_weaken local_event any_event);
                 [intros; exact I | apply emits_write_df_to_disk]
               | emits_step ].
Qed.

End Termination.

(** C9 as stated fails: with a zero interval [sleep_counter_ms] never
    moves, and a job that stays incomplete is polled for ever; no amount of
    fuel lets the loop, or the method, end. *)
Lemma zero_interval_polls_forever :
  (0 <= 20000)%Z /\ (0 <= 0)%Z
  /\ (forall fuel last s,
        poll sample_library (sample_world (mkScenario 200 None false false)) fuel
          (sample_base ++ "responseexports/ES_1") (api_token_header sample_client)
          20000 0 0 last s = None)
  /\ (forall fuel,
        ~ terminates
            (get_responseexports sample_library
               (sample_world (mkScenario 200 None false false))
               fuel "SV_1" "Survey 1" false false "json" 20000 0 []) sample_state).
Proof.
  split; [lia|]. split; [lia|]. split.
  - intros fuel. apply poll_without_sleep_runs_out.
  - intros fuel (out & s' & Hrun).
    rewrite get_responseexports_without_sleep_runs_out in Hrun. discriminate.
Qed.

(** C9, amended.  For a non-negative [max_wait_ms] and a positive
    [sleep_ms] the polling loop ends whatever the server answers, also when
    [percentComplete] never reaches 100: it issues at most
    [max_wait_ms / sleep_ms + 1] status requests, every sleep lasts
    [sleep_ms], the sleeps add up to at most [max_wait_ms + sleep_ms], and
    [get_responseexports] as a whole ends with a result or an exception. *)
Theorem polling_terminates_with_positive_interval
    (lib : Library) (w : World) (url : string) (hdr : headers)
    (max_wait_ms sleep_ms : Z) (fuel : nat) (s : state) :
  (0 <= max_wait_ms)%Z -> (0 < sleep_ms)%Z ->
  (Z.to_nat (max_wait_ms / sleep_ms) + 1 < fuel)%nat ->
  (exists out s' evs,
     poll lib w fuel url hdr max_wait_ms sleep_ms 0 None s = Some (out, s')
     /\ history s' = (history s ++ evs)%list
     /\ Forall (poll_event url hdr sleep_ms) evs
     /\ (count_gets evs <= Z.to_nat (max_wait_ms / sleep_ms) + 1)%nat
     /\ (slept evs <= max_wait_ms + sleep_ms)%Z)
  /\ (forall survey_token survey_name write_to_disk and_get_survey result_format kwargs,
        terminates (get_responseexports lib w fuel survey_token survey_name write_to_disk
                      and_get_survey result_format max_wait_ms sleep_ms kwargs) s).
Proof.
  intros Hwait Hpos Hfuel.
  assert (Hleft : polls_left max_wait_ms sleep_ms 0
                  = (Z.to_nat (max_wait_ms / sleep_ms) + 1)%nat).
  { unfold polls_left. rewrite Z.sub_0_r.
    assert (0 <= max_wait_ms / sleep_ms)%Z by (apply Z.div_pos; lia). lia. }
  split.
  - destruct (poll_terminates lib w url hdr max_wait_ms sleep_ms fuel Hpos 0%Z None s)
      as (out & s' & evs & Hrun & Hh & Hall & Hcount & Hslept); [lia|].
    exists out, s', evs. repeat split; try assumption; lia.
  - intros. apply get_responseexports_terminates; [assumption | lia].
Qed.

Lemma polling_terminates_with_positive_interval_witness :
  exists out s',
    poll sample_library (sample_world (mkScenario 200 None false false)) 5
      (sample_base ++ "responseexports/ES_1") (api_token_header sample_client)
      3 1 0 None sample_state = Some (out, s')
    /\ (count_gets (history s') <= 4)%nat.
Proof.
  destruct (polling_terminates_with_positive_interval sample_library
              (sample_world (mkScenario 200 None false false))
              (sample_base ++ "responseexports/ES_1") (api_token_header sample_client)
              3 1 5 sample_state) as [(out & s' & evs & Hrun & Hh & _ & Hcount & _) _].
  - lia.
  - lia.
  - simpl. lia.
  - exists out, s'. split; [exact Hrun|]. rewrite Hh. exact Hcount.
Defined.

(** ** The export *)

Lemma then_ret_pair_yields {A : Type} (m : M string) (m2 : string -> M A) (v : json)
    (s s' : state) (out : result (json * string)) :
  bind m (fun f => bind (m2 f) (fun _ => ret (v, f))) s = Some (out, s') ->
  (exists f, out = Ok (v, f)) \/ exists e, out = Raise e.
Proof.
  unfold bind, ret. destruct (m s) as [[[f|e] s1]|]; [| |discriminate].
  - destruct (m2 f s1) as [[[a|e] s2]|]; intros H; inversion H; eauto.
  - intros H; inversion H; eauto.
Qed.

Section ExportJob.

Variable lib : Library.
Variable w : World.

(** What [get_responseexports] does with the parsed [responses]. *)
Lemma export_tail_emits (survey_token survey_name url_suffix : string)
    (write_to_disk and_get_survey : bool) (v : json) :
  emits any_event
    (filename <-
       (if write_to_disk then
          dataframe <- lift (create_df_from_api_data lib (PJson v)) ;;
          write_df_to_disk w dataframe survey_name url_suffix
        else
          print ("Retrieved responseexports data for " ++ survey_name) ;;
          ret " ") ;;
     (if and_get_survey
      then get_survey lib w survey_token survey_name write_to_disk ;; ret tt
      else ret tt) ;;
     ret (v, filename)).
Proof.
  repeat first [ apply emits_get_survey
               | apply (emits_weaken local_event any_event);
                 [intros; exact I | apply emits_write_df_to_disk]
               | emits_step | exact I ].
Qed.

End ExportJob.

(** C3 fails on the code.  The job below stays at 50 percent in every
    status it reports, and its status names a file; after three status
    requests the wait of 2 is used up, the loop falls through, and the
    method downloads the file and returns its responses as if the job had
    completed: no exception is raised. *)
Theorem incomplete_export_returned_after_timeout :
  let w := sample_world (mkScenario 200 None false false) in
  (forall h hdr,
     requests_get w h (sample_base ++ "responseexports/ES_1") hdr
     = Ok (mkResponse 200 "pending"))
  /\ json_loads sample_library "pending" = Ok (sample_status 50)
  /\ equals_100 (JNum 50) = false
  /\ exists s',
       get_responseexports sample_library w 10 "SV_1" "Survey 1" false false "json"
         2 1 [] sample_state = Some (Ok (sample_responses, " "), s')
       /\ count_gets (history s') = 4%nat
       /\ slept (history s') = 3%Z.
Proof.
  intros w. split; [reflexivity|]. split; [reflexivity|]. split; [reflexivity|].
  eexists. split; [vm_compute; reflexivity|]. split; reflexivity.
Qed.

(** ** Tables *)

Lemma blank_empty_not_empty (c : cell) : blank_empty c <> empty_cell.
Proof.
  destruct c as [|[| | |[|a s]| |]]; simpl; unfold empty_cell; congruence.
Qed.

Lemma blank_empty_other (c : cell) : c <> empty_cell -> blank_empty c = c.
Proof.
  destruct c as [|[| | |[|a s]| |]]; simpl; unfold empty_cell; congruence.
Qed.

Lemma blank_empty_idempotent (c : cell) : blank_empty (blank_empty c) = blank_empty c.
Proof. apply blank_empty_other, blank_empty_not_empty. Qed.

Lemma cell_at_applymap (f : cell -> cell) (df : DataFrame) (i j : nat) :
  cell_at (applymap f df) i j = option_map f (cell_at df i j).
Proof.
  unfold cell_at, applymap. simpl. rewrite nth_error_map.
  destruct (nth_error (rows df) i) as [row|]; simpl; [apply nth_error_map | reflexivity].
Qed.

Lemma applymap_idempotent (df : DataFrame) :
  applymap blank_empty (applymap blank_empty df) = applymap blank_empty df.
Proof.
  unfold applymap. simpl. f_equal. rewrite map_map. apply map_ext. intros row.
  rewrite map_map. apply map_ext. intros c. apply blank_empty_idempotent.
Qed.

Lemma applymap_without_empty (df : DataFrame) :
  Forall (Forall (fun c => c <> empty_cell)) (rows df) -> applymap blank_empty df = df.
Proof.
  destruct df as [cols rws]. unfold applymap. simpl. intros Hall. f_equal.
  induction Hall as [|row rest Hrow _ IH]; simpl; [reflexivity|]. f_equal; [|exact IH].
  induction Hrow as [|c cs Hc _ IHc]; simpl; [reflexivity|].
  rewrite (blank_empty_other c Hc), IHc. reflexivity.
Qed.

(** C4.  When [create_df_from_api_data] accepts a payload, the table it
    returns has the shape of the table built from the payload; every cell
    that was the empty string is the one-space string, every other cell is
    kept, no cell of the result is the empty string, and blanking the
    result again changes nothing. *)
Theorem create_df_blanks_empty_strings
    (lib : Library) (json_data : payload) (df : DataFrame) :
  create_df_from_api_data lib json_data = Ok df ->
  exists built,
    to_frame lib json_data = Ok built
    /\ columns df = columns built
    /\ List.length (rows df) = List.length (rows built)
    /\ (forall i j, cell_at built i j = Some empty_cell -> cell_at df i j = Some blank_cell)
    /\ (forall i j c, cell_at built i j = Some c -> c <> empty_cell -> cell_at df i j = Some c)
    /\ (forall i j, cell_at df i j <> Some empty_cell)
    /\ applymap blank_empty df = df
    /\ create_df_from_api_data lib (PFrame df) = Ok df.
Proof.
  unfold create_df_from_api_data. destruct (to_frame lib json_data) as [built|e];
    [|discriminate].
  intros H. inversion H; subst df; clear H. exists built.
  split; [reflexivity|]. split; [reflexivity|].
  split; [simpl; apply length_map|].
  split; [|split; [|split; [|split]]].
  - intros i j Hc. rewrite cell_at_applymap, Hc. reflexivity.
  - intros i j c Hc Hne. rewrite cell_at_applymap, Hc. simpl.
    rewrite (blank_empty_other c Hne). reflexivity.
  - intros i j. rewrite cell_at_applymap.
    destruct (cell_at built i j) as [c|]; simpl; [|discriminate].
    intros H. inversion H as [Hc]. exact (blank_empty_not_empty c Hc).
  - apply applymap_idempotent.
  - unfold to_frame. rewrite applymap_idempotent. reflexivity.
Qed.

Lemma create_df_blanks_empty_strings_witness :
  exists built,
    to_frame sample_library (PJson sample_responses) = Ok built
    /\ cell_at built 1 1 = Some empty_cell
    /\ cell_at (mkDataFrame [LStr "q1"; LStr "q2"]
                  [[Val (JStr "a"); NaN];
                   [Val (JStr "b"); Val (JStr " ")];
                   [NaN; Val (JStr "c")]]) 1 1 = Some blank_cell.
Proof.
  destruct (create_df_blanks_empty_strings sample_library (PJson sample_responses)
              (mkDataFrame [LStr "q1"; LStr "q2"]
                 [[Val (JStr "a"); NaN];
                  [Val (JStr "b"); Val (JStr " ")];
                  [NaN; Val (JStr "c")]]) eq_refl)
    as (built & Hbuilt & _ & _ & Hblank & _).
  exists built. split; [exact Hbuilt|].
  assert (Hcell : cell_at built 1 1 = Some empty_cell).
  { vm_compute in Hbuilt. inversion Hbuilt. reflexivity. }
  split; [exact Hcell | exact (Hblank 1%nat 1%nat Hcell)].
Defined.

Lemma as_records_dicts (records : list (list (string * json))) :
  as_records (map JDict records) = Some records.
Proof.
  induction records as [|r rest IH]; simpl; [reflexivity|]. rewrite IH. reflexivity.
Qed.

Lemma union_keys_spec (records : list (list (string * json))) (k : string) :
  In k (union_keys records) <-> exists r, In r records /\ In k (map fst r).
Proof.
  unfold union_keys. rewrite <- in_rev, nodup_In, <- in_rev, in_concat. split.
  - intros (l & Hl & Hk). apply in_map_iff in Hl. destruct Hl as (r & <- & Hr).
    exists r. split; assumption.
  - intros (r & Hr & Hk). exists (map fst r). split; [|exact Hk].
    apply in_map. exact Hr.
Qed.

Lemma union_keys_NoDup (records : list (list (string * json))) :
  NoDup (union_keys records).
Proof. unfold union_keys. apply NoDup_rev, NoDup_nodup. Qed.

Lemma dict_get_missing {V : Type} (k : string) (d : list (string * V)) :
  ~ In k (map fst d) -> dict_get k d = None.
Proof.
  induction d as [|[k' v] rest IH]; simpl; intros Hnot; [reflexivity|].
  destruct (String.eqb_spec k k') as [->|Hne].
  - exfalso. apply Hnot. left. reflexivity.
  - apply IH. intros Hin. apply Hnot. right. exact Hin.
Qed.

Lemma cell_at_records (records : list (list (string * json))) (keys : list string)
    (i j : nat) (r : list (string * json)) (k : string) :
  nth_error records i = Some r -> nth_error keys j = Some k ->
  cell_at (applymap blank_empty (mkDataFrame (map LStr keys)
                                   (map (record_row keys) records))) i j
  = Some (match dict_get k r with
          | Some v => blank_empty (Val v)
          | None => NaN
          end).
Proof.
  intros Hr Hk. rewrite cell_at_applymap. unfold cell_at. simpl.
  rewrite nth_error_map, Hr. simpl. unfold record_row.
  rewrite nth_error_map, Hk. simpl. destruct (dict_get k r); reflexivity.
Qed.

(** C5 as stated fails.  The empty dictionary gives the table without
    rows and without columns, not a table of two columns.  And the choice
    is by type, not by shape: a list that holds something else than
    dictionaries is a list, so it is handed to [pd.DataFrame] and the
    method raises no error of its own for it. *)
Lemma empty_mapping_has_no_columns :
  create_df_from_api_data sample_library (PJson (JDict [])) = Ok (mkDataFrame [] [])
  /\ List.length (columns (mkDataFrame [] [])) <> 2%nat
  /\ forall lib,
       create_df_from_api_data lib (PJson (JList [JNum 1; JNum 2]))
       = match DataFrame_of_list lib [JNum 1; JNum 2] with
         | Ok table => Ok (applymap blank_empty table)
         | Raise e => Raise e
         end.
Proof.
  split; [reflexivity|]. split; [discriminate|]. intros lib. reflexivity.
Qed.

(** C5, amended.  [create_df_from_api_data] chooses the table by the type
    of its argument.  A list of dictionaries gives one row per record and
    one column per key that occurs in a record; a cell holds the value of
    its record for its key, and [NaN] where the record lacks the key.  A
    list with another element is handed to [pd.DataFrame] as it is.  A
    dictionary gives one row of two cells, key and value, per item, under
    the columns 0 and 1 when it has an item; the empty dictionary gives the
    empty table without columns.  A table is taken as it is.  A value that
    is no list, dictionary or table raises the [ValueError] of the last
    branch.  Empty strings are then blanked, so a table without them comes
    back unchanged.  For the three records of the example the table has 3
    rows, the columns q1 and q2, and a space at row 2, q2. *)
Theorem create_df_dispatches_on_shape (lib : Library) :
  (forall records, exists df keys,
      create_df_from_api_data lib (PJson (JList (map JDict records))) = Ok df
      /\ List.length (rows df) = List.length records
      /\ columns df = map LStr keys
      /\ NoDup keys
      /\ (forall k, In k keys <-> exists r, In r records /\ In k (map fst r))
      /\ (forall i j r k,
            nth_error records i = Some r -> nth_error keys j = Some k ->
            (forall v, dict_get k r = Some v -> cell_at df i j = Some (blank_empty (Val v)))
            /\ (~ In k (map fst r) -> cell_at df i j = Some NaN)))
  /\ (forall d, exists df,
      create_df_from_api_data lib (PJson (JDict d)) = Ok df
      /\ rows df = map (fun kv => [blank_empty (Val (JStr (fst kv)));
                                   blank_empty (Val (snd kv))]) d
      /\ Forall (fun row => List.length row = 2%nat) (rows df)
      /\ (d <> [] -> columns df = [LInt 0; LInt 1])
      /\ (d = [] -> df = mkDataFrame [] []))
  /\ (forall l, as_records l = None ->
      create_df_from_api_data lib (PJson (JList l))
      = match DataFrame_of_list lib l with
        | Ok table => Ok (applymap blank_empty table)
        | Raise e => Raise e
        end)
  /\ (forall df,
      to_frame lib (PFrame df) = Ok df
      /\ create_df_from_api_data lib (PFrame df) = Ok (applymap blank_empty df)
      /\ (Forall (Forall (fun c => c <> empty_cell)) (rows df) ->
          create_df_from_api_data lib (PFrame df) = Ok df))
  /\ (forall j, is_list_or_dict j = false ->
      create_df_from_api_data lib (PJson j)
      = Raise (ValueError "Need to add a new type of dataframe object value to the code."))
  /\ create_df_from_api_data lib (PJson sample_responses)
     = Ok (mkDataFrame [LStr "q1"; LStr "q2"]
             [[Val (JStr "a"); NaN];
              [Val (JStr "b"); Val (JStr " ")];
              [NaN; Val (JStr "c")]]).
Proof.
  split; [|split; [|split; [|split; [|split]]]].
  - intros records.
    exists (applymap blank_empty (DataFrame_of_records records)), (union_keys records).
    unfold create_df_from_api_data, to_frame. rewrite as_records_dicts.
    split; [reflexivity|]. split; [simpl; rewrite !length_map; reflexivity|].
    split; [reflexivity|]. split; [apply union_keys_NoDup|].
    split; [apply union_keys_spec|].
    intros i j r k Hr Hk. unfold DataFrame_of_records.
    rewrite (cell_at_records records (union_keys records) i j r k Hr Hk). split.
    + intros v Hv. rewrite Hv. reflexivity.
    + intros Hmissing. rewrite (dict_get_missing k r Hmissing). reflexivity.
  - intros d. exists (applymap blank_empty (DataFrame_of_items d)).
    split; [reflexivity|]. split; [|split; [|split]].
    + simpl. rewrite map_map. reflexivity.
    + simpl. rewrite map_map. apply Forall_map, Forall_forall. intros; reflexivity.
    + destruct d; [congruence | reflexivity].
    + intros ->. reflexivity.
  - intros l Hl. unfold create_df_from_api_data, to_frame. rewrite Hl. reflexivity.
  - intros df. split; [reflexivity|]. split; [reflexivity|].
    intros Hall. unfold create_df_from_api_data, to_frame.
    rewrite (applymap_without_empty df Hall). reflexivity.
  - intros j Hj. destruct j; try discriminate; reflexivity.
  - reflexivity.
Qed.

Lemma create_df_dispatches_on_shape_witness :
  is_list_or_dict (JNum 5) = false
  /\ create_df_from_api_data sample_library (PJson (JNum 5))
     = Raise (ValueError "Need to add a new type of dataframe object value to the code.")
  /\ create_df_from_api_data sample_library
       (PFrame (mkDataFrame [LInt 0; LInt 1] [[Val (JStr "k"); Val (JNum 1)]]))
     = Ok (mkDataFrame [LInt 0; LInt 1] [[Val (JStr "k"); Val (JNum 1)]]).
Proof.
  destruct (create_df_dispatches_on_shape sample_library)
    as (_ & _ & _ & Hframe & Hother & _).
  split; [reflexivity|]. split.
  - apply Hother. reflexivity.
  - apply Hframe. repeat constructor; unfold empty_cell; congruence.
Defined.

(** ** Output paths *)

Lemma append_assoc (a b c : string) : (a ++ b) ++ c = a ++ b ++ c.
Proof. induction a as [|x a IH]; simpl; [reflexivity | rewrite IH; reflexivity]. Qed.

Lemma strftime_Ymd_same_day (d1 d2 : datetime) :
  same_day d1 d2 -> strftime_Ymd d1 = strftime_Ymd d2.
Proof. intros (Hy & Hm & Hd). unfold strftime_Ymd. rewrite Hy, Hm, Hd. reflexivity. Qed.

Section OutputPath.

Variable w : World.
Variable q : Qualtrics.
Variables base_path survey_name type extension : string.

Lemma setup_output_filename_run (h : list event) :
  setup_output_filename w base_path survey_name type extension (mkState q h)
  = match (if os_path_exists w h (base_path ++ project_name q)
           then Ok tt else os_mkdir w h (base_path ++ project_name q)) with
    | Ok _ =>
        Some (Ok ((base_path ++ project_name q) ++ "/"
                  ++ stamp (use_timestamps q) (instant_read w q base_path h)
                  ++ "_" ++ survey_name ++ "_" ++ type ++ "." ++ extension),
              mkState q (after_mkdir w (base_path ++ project_name q) h))
    | Raise e => Some (Raise e, mkState q (after_mkdir w (base_path ++ project_name q) h))
    end.
Proof.
  unfold instant_read, after_mkdir, setup_output_filename, stamp, bind, get_self,
    ask, call, ret. simpl.
  destruct (os_path_exists w h (base_path ++ project_name q)); simpl.
  - destruct (use_timestamps q); reflexivity.
  - destruct (os_mkdir w h (base_path ++ project_name q)) as [[]|e]; [|reflexivity].
    destruct (use_timestamps q); reflexivity.
Qed.

Lemma setup_output_filename_returns (h : list event) (p : string) (s' : state) :
  setup_output_filename w base_path survey_name type extension (mkState q h)
  = Some (Ok p, s') ->
  p = (base_path ++ project_name q) ++ "/"
      ++ stamp (use_timestamps q) (instant_read w q base_path h)
      ++ "_" ++ survey_name ++ "_" ++ type ++ "." ++ extension.
Proof.
  rewrite setup_output_filename_run.
  destruct (if os_path_exists w h (base_path ++ project_name q)
            then Ok tt else os_mkdir w h (base_path ++ project_name q));
    intros H; inversion H; reflexivity.
Qed.

End OutputPath.

Lemma stamp_same (with_time : bool) (d1 d2 : datetime) :
  (if with_time then d1 = d2 else same_day d1 d2) -> stamp with_time d1 = stamp with_time d2.
Proof.
  unfold stamp. destruct with_time; intros H.
  - rewrite H. reflexivity.
  - apply strftime_Ymd_same_day. exact H.
Qed.

(** C6 as stated fails: the method puts no separator between the base path
    and the project name; the callers pass a base path that ends with one. *)
Lemma setup_output_filename_needs_separator :
  exists s',
    setup_output_filename (sample_world (mkScenario 200 None false false))
      "out" "Survey 1" "survey" "json" sample_state
    = Some (Ok "outProject 1/20161104_Survey 1_survey.json", s')
    /\ "outProject 1/20161104_Survey 1_survey.json"
       <> artifact_path "out" "Project 1" "20161104" "Survey 1" "survey" "json".
Proof.
  eexists. split; [vm_compute; reflexivity | discriminate].
Qed.

(** C6, amended.  Whenever the project folder exists or can be made,
    [setup_output_filename] returns the base path followed by the project
    name, [/], the stamp, [_], the survey name, [_], the type, [.] and the
    extension; the only other end is the exception of [os.mkdir].  For a
    base path [<base>/], as [write_df_to_disk] and [get_survey] pass it,
    this is the path of the specification.  The stamp is the eight digits
    of the date, followed by [_] and the six digits of the time exactly
    when timestamps are enabled.  The path depends on the inputs and the
    instant read only: two calls that return, at the same instant (on the
    same day when timestamps are disabled), return the same path. *)
Theorem setup_output_filename_path
    (w : World) (q : Qualtrics) (base_path survey_name type extension : string) :
  (forall h,
     os_path_exists w h (base_path ++ project_name q) = true
     \/ os_mkdir w h (base_path ++ project_name q) = Ok tt ->
     setup_output_filename w base_path survey_name type extension (mkState q h)
     = Some (Ok ((base_path ++ project_name q) ++ "/"
                 ++ stamp (use_timestamps q) (instant_read w q base_path h)
                 ++ "_" ++ survey_name ++ "_" ++ type ++ "." ++ extension),
             mkState q (after_mkdir w (base_path ++ project_name q) h)))
  /\ (forall h out s',
        setup_output_filename w base_path survey_name type extension (mkState q h)
        = Some (out, s') ->
        (exists p, out = Ok p)
        \/ (exists e, out = Raise e
                       /\ os_path_exists w h (base_path ++ project_name q) = false
                       /\ os_mkdir w h (base_path ++ project_name q) = Raise e))
  /\ (forall base today,
        base_path = base ++ "/" ->
        (base_path ++ project_name q) ++ "/" ++ today ++ "_" ++ survey_name ++ "_"
        ++ type ++ "." ++ extension
        = artifact_path base (project_name q) today survey_name type extension)
  /\ (forall d,
        stamp false d = strftime_Ymd d
        /\ stamp true d = strftime_Ymd d ++ "_" ++ strftime_HMS d
        /\ String.length (strftime_Ymd d) = 8%nat
        /\ String.length (strftime_HMS d) = 6%nat)
  /\ (forall h1 h2 p1 p2 s1 s2,
        (if use_timestamps q
         then instant_read w q base_path h1 = instant_read w q base_path h2
         else same_day (instant_read w q base_path h1) (instant_read w q base_path h2)) ->
        setup_output_filename w base_path survey_name type extension (mkState q h1)
        = Some (Ok p1, s1) ->
        setup_output_filename w base_path survey_name type extension (mkState q h2)
        = Some (Ok p2, s2) ->
        p1 = p2).
Proof.
  split; [|split; [|split; [|split]]].
  - intros h Hdir. rewrite setup_output_filename_run.
    destruct (os_path_exists w h (base_path ++ project_name q)); [reflexivity|].
    destruct Hdir as [Hdir|Hdir]; [discriminate|]. rewrite Hdir. reflexivity.
  - intros h out s'. rewrite setup_output_filename_run.
    destruct (os_path_exists w h (base_path ++ project_name q)).
    + intros H; inversion H. left. eauto.
    + destruct (os_mkdir w h (base_path ++ project_name q)) as [[]|e];
        intros H; inversion H; [left; eauto | right; exists e; repeat split].
  - intros base today ->. unfold artifact_path. rewrite !append_assoc. reflexivity.
  - intros d. repeat split; reflexivity.
  - intros h1 h2 p1 p2 s1 s2 Hsame H1 H2.
    apply setup_output_filename_returns in H1, H2. subst p1 p2.
    rewrite (stamp_same _ _ _ Hsame). reflexivity.
Qed.

Lemma setup_output_filename_path_witness :
  setup_output_filename (sample_world (mkScenario 200 None false false))
    "out/" "Survey 1" "survey" "json" sample_state
  = Some (Ok (artifact_path "out" "Project 1" "20161104" "Survey 1" "survey" "json"),
          mkState sample_client [EvMkdir "out/Project 1"]).
Proof.
  destruct (setup_output_filename_path (sample_world (mkScenario 200 None false false))
              sample_client "out/" "Survey 1" "survey" "json") as (Hpath & _).
  exact (Hpath [] (or_intror eq_refl)).
Defined.

(** ** Writing JSON *)

Section WriteJson.

Variable w : World.
Variable json_data : json.
Variable path : string.

(** An exception of [open] leaves the method as it is: [open] is called
    before the [try] is entered. *)
Lemma write_json_open_failure (s : state) (e : exn) :
  file_open w (history s) path = Raise e ->
  write_json_to_disk w json_data path s
  = Some (Raise e, mkState (self s) (history s ++ [EvOpen path])).
Proof.
  intros Hopen. unfold write_json_to_disk, with_open, call. rewrite Hopen. reflexivity.
Qed.

(** An exception of [json.dump] is replaced by the [ValueError] that names
    the absolute path, when the file then closes. *)
Lemma write_json_dump_failure (s : state) (e : exn) :
  file_open w (history s) path = Ok tt ->
  json_dump w (history s ++ [EvOpen path]) json_data path = Raise e ->
  file_close w ((history s ++ [EvOpen path]) ++ [EvDump json_data path]) path = Ok tt ->
  write_json_to_disk w json_data path s
  = Some (Raise (ValueError ("Unable to write json output to disk at "
                             ++ os_path_abspath w path)),
          mkState (self s)
            (((history s ++ [EvOpen path]) ++ [EvDump json_data path]) ++ [EvClose path])).
Proof.
  intros Hopen Hdump Hclose.
  unfold write_json_to_disk, with_open, try_except, bind, call, raise. simpl.
  rewrite Hopen, Hdump. simpl. rewrite Hclose. reflexivity.
Qed.

End WriteJson.

(** C8 fails on the code.  When the destination cannot be opened,
    [write_json_to_disk] ends with the [IOError] of [open], which names no
    path, and not with the [ValueError] it raises when [json.dump] fails
    (second run below, on a file that opens). *)
Theorem write_json_open_failure_not_wrapped :
  let path := "out/Project 1/20161104_Survey 1_survey.json" in
  let unopenable := sample_world (mkScenario 200 None true false) in
  let unwritable := sample_world (mkScenario 200 None false true) in
  file_open unopenable [] path = Raise IOError
  /\ write_json_to_disk unopenable sample_survey path sample_state
     = Some (Raise IOError, mkState sample_client [EvOpen path])
  /\ write_json_to_disk unwritable sample_survey path sample_state
     = Some (Raise (ValueError ("Unable to write json output to disk at "
                                ++ os_path_abspath unwritable path)),
             mkState sample_client
               [EvOpen path; EvDump sample_survey path; EvClose path]).
Proof.
  intros path unopenable unwritable. split; [reflexivity|]. split.
  - apply (write_json_open_failure unopenable sample_survey path sample_state IOError).
    reflexivity.
  - apply (write_json_dump_failure unwritable sample_survey path sample_state IOError);
      reflexivity.
Qed.

(** * Further properties of the methods *)

(** ** The form of the submission *)

Lemma dict_get_set_same {V : Type} (k : string) (v : V) (d : list (string * V)) :
  dict_get k (dict_set k v d) = Some v.
Proof.
  induction d as [|[k' v'] rest IH]; simpl.
  - rewrite String.eqb_refl. reflexivity.
  - destruct (String.eqb_spec k k') as [->|Hne]; simpl.
    + rewrite String.eqb_refl. reflexivity.
    + destruct (String.eqb_spec k k'); [contradiction | exact IH].
Qed.

Lemma dict_get_set_other {V : Type} (k k' : string) (v : V) (d : list (string * V)) :
  k <> k' -> dict_get k (dict_set k' v d) = dict_get k d.
Proof.
  intros Hne. induction d as [|[k0 v0] rest IH]; simpl.
  - destruct (String.eqb_spec k k'); [contradiction | reflexivity].
  - destruct (String.eqb_spec k' k0) as [->|Hne0]; simpl.
    + destruct (String.eqb_spec k k0); [contradiction | reflexivity].
    + destruct (String.eqb_spec k k0); [reflexivity | exact IH].
Qed.

Lemma dict_set_keys {V : Type} (k k' : string) (v : V) (d : list (string * V)) :
  In k' (map fst (dict_set k v d)) <-> k' = k \/ In k' (map fst d).
Proof.
  induction d as [|[k0 v0] rest IH]; simpl.
  - intuition.
  - destruct (String.eqb_spec k k0) as [->|Hne]; simpl; [intuition|].
    rewrite IH. intuition.
Qed.

Lemma dict_set_NoDup {V : Type} (k : string) (v : V) (d : list (string * V)) :
  NoDup (map fst d) -> NoDup (map fst (dict_set k v d)).
Proof.
  induction d as [|[k0 v0] rest IH]; simpl; intros Hnd.
  - constructor; [intros [] | constructor].
  - inversion Hnd as [|x l Hnotin Hrest]; subst.
    destruct (String.eqb_spec k k0) as [->|Hne]; simpl.
    + constructor; assumption.
    + constructor; [|apply IH; exact Hrest].
      rewrite dict_set_keys. intros [Heq|Hin]; [congruence | contradiction].
Qed.

Lemma dict_get_copy_kwarg (k key : string) (kwargs form : list (string * json)) :
  dict_get k (copy_kwarg key kwargs form)
  = if String.eqb k key
    then match dict_get key kwargs with Some v => Some v | None => dict_get k form end
    else dict_get k form.
Proof.
  unfold copy_kwarg. destruct (String.eqb_spec k key) as [->|Hne].
  - destruct (dict_get key kwargs); [apply dict_get_set_same | reflexivity].
  - destruct (dict_get key kwargs); [apply dict_get_set_other; exact Hne | reflexivity].
Qed.

Lemma dict_get_copy_kwarg_or (k key : string) (default : json)
    (kwargs form : list (string * json)) :
  dict_get k (copy_kwarg_or key default kwargs form)
  = if String.eqb k key
    then Some (match dict_get key kwargs with Some v => v | None => default end)
    else dict_get k form.
Proof.
  unfold copy_kwarg_or. destruct (String.eqb_spec k key) as [->|Hne].
  - destruct (dict_get key kwargs); apply dict_get_set_same.
  - destruct (dict_get key kwargs); apply dict_get_set_other; exact Hne.
Qed.

Lemma copy_kwarg_NoDup (key : string) (kwargs form : list (string * json)) :
  NoDup (map fst form) -> NoDup (map fst (copy_kwarg key kwargs form)).
Proof.
  unfold copy_kwarg. destruct (dict_get key kwargs); [apply dict_set_NoDup | auto].
Qed.

Lemma copy_kwarg_or_NoDup (key : string) (default : json)
    (kwargs form : list (string * json)) :
  NoDup (map fst form) -> NoDup (map fst (copy_kwarg_or key default kwargs form)).
Proof.
  unfold copy_kwarg_or. destruct (dict_get key kwargs); apply dict_set_NoDup.
Qed.

Ltac form_lookup :=
  unfold export_form_fields;
  repeat first [rewrite dict_get_copy_kwarg_or | rewrite dict_get_copy_kwarg];
  simpl.

(** X1.  The form that is posted always carries [surveyId], the token,
    and [format], the format in lower case, whatever the keyword arguments
    say; [useLabels] and [useLocalTime] are the keyword arguments of these
    names, [True] and [False] without them; the five optional fields are
    present exactly when they are keyword arguments; no other keyword
    argument reaches the form, and no key occurs twice. *)
Theorem export_form_fields_content
    (survey_token result_format : string) (kwargs : list (string * json)) :
  let form := export_form_fields survey_token result_format kwargs in
  dict_get "surveyId" form = Some (JStr survey_token)
  /\ dict_get "format" form = Some (JStr (lower result_format))
  /\ dict_get "useLabels" form
     = Some (match dict_get "useLabels" kwargs with Some v => v | None => JBool true end)
  /\ dict_get "useLocalTime" form
     = Some (match dict_get "useLocalTime" kwargs with Some v => v | None => JBool false end)
  /\ (forall k, In k optional_form_keys -> dict_get k form = dict_get k kwargs)
  /\ (forall k, ~ In k form_keys -> dict_get k form = None)
  /\ NoDup (map fst form).
Proof.
  intros form. unfold form.
  split; [form_lookup; reflexivity|]. split; [form_lookup; reflexivity|].
  split; [form_lookup; reflexivity|]. split; [form_lookup; reflexivity|].
  split; [|split].
  - intros k Hk. simpl in Hk.
    destruct Hk as [<-|[<-|[<-|[<-|[<-|[]]]]]]; form_lookup;
      match goal with |- context [dict_get ?key kwargs] =>
        destruct (dict_get key kwargs); reflexivity end.
  - intros k Hk. unfold form_keys, optional_form_keys in Hk. simpl in Hk.
    form_lookup.
    repeat match goal with
           | |- context [String.eqb k ?key] =>
               destruct (String.eqb_spec k key); [exfalso; apply Hk; subst k; tauto|]
           end.
    reflexivity.
  - unfold export_form_fields.
    repeat first [apply copy_kwarg_or_NoDup | apply copy_kwarg_NoDup].
    simpl. repeat constructor; simpl; intuition discriminate.
Qed.

Lemma export_form_fields_content_witness :
  let form := export_form_fields "SV_1" "JSON"
                [("limit", JNum 10); ("url_suffix", JStr "responseexports");
                 ("surveyId", JStr "SV_2")] in
  dict_get "limit" form = Some (JNum 10)
  /\ dict_get "url_suffix" form = None
  /\ dict_get "surveyId" form = Some (JStr "SV_1").
Proof.
  destruct (export_form_fields_content "SV_1" "JSON"
              [("limit", JNum 10); ("url_suffix", JStr "responseexports");
               ("surveyId", JStr "SV_2")])
    as (Hid & _ & _ & _ & Hopt & Hother & _).
  split; [|split].
  - rewrite (Hopt "limit"); [reflexivity | simpl; tauto].
  - apply Hother. simpl. intuition discriminate.
  - exact Hid.
Defined.

(** ** How the polling loop ends *)

Section PollingExit.

Variable lib : Library.
Variable w : World.
Variable url : string.
Variable hdr : headers.
Variable max_wait_ms sleep_ms : Z.

Lemma poll_exit (fuel : nat) :
  forall (c : Z) (last r : option json) (s s' : state),
    match last with Some st => is_complete st = false | None => True end ->
    poll lib w fuel url hdr max_wait_ms sleep_ms c last s = Some (Ok r, s') ->
    exists evs,
      history s' = (history s ++ evs)%list
      /\ match r with
         | Some st =>
             if is_complete st
             then (c + slept evs <= max_wait_ms)%Z
                  /\ count_gets evs = S (count_sleeps evs)
             else (max_wait_ms < c + slept evs)%Z
                  /\ count_gets evs = count_sleeps evs
         | None => (max_wait_ms < c)%Z /\ evs = [] /\ last = None
         end.
Proof.
  induction fuel as [|fuel IH]; intros c last r s s' Hlast; [discriminate|].
  simpl. destruct (Z.leb_spec c max_wait_ms) as [Hle|Hgt].
  - unfold bind at 1. unfold call at 1.
    destruct (requests_get w (history s) url hdr) as [resp|e]; [|discriminate].
    unfold bind at 1, lift at 1.
    destruct (json_loads lib (content resp)) as [status|e]; [|discriminate].
    unfold bind at 1, lift at 1.
    destruct (getitem status "result") as [res|e] eqn:Hres; [|discriminate].
    unfold bind at 1, lift at 1.
    destruct (getitem res "percentComplete") as [percent|e] eqn:Hpercent; [|discriminate].
    assert (Hcomplete : is_complete status = equals_100 percent).
    { unfold is_complete. rewrite Hres, Hpercent. reflexivity. }
    destruct (equals_100 percent).
    + intros H. inversion H; subst r s'; clear H. exists [EvGet url hdr].
      split; [reflexivity|]. rewrite Hcomplete. simpl. split; [lia | reflexivity].
    + unfold bind at 1, time_sleep.
      destruct (Z.ltb_spec sleep_ms 0) as [Hneg|Hpos]; [discriminate|].
      unfold call at 1. simpl history. simpl self. intros Hrun.
      destruct (IH _ (Some status) _ _ _ Hcomplete Hrun) as (evs & Hh & Hr).
      exists (EvGet url hdr :: EvSleep sleep_ms :: evs). split.
      * rewrite Hh. simpl. rewrite <- !app_assoc. reflexivity.
      * destruct r as [st|].
        -- simpl. destruct (is_complete st); destruct Hr as [Hs Hc]; split; lia.
        -- destruct Hr as (_ & _ & Hnone). discriminate.
  - intros H. inversion H; subst r s'; clear H. exists []. rewrite app_nil_r.
    split; [reflexivity|]. destruct last as [st|].
    + rewrite Hlast. simpl. split; [lia | reflexivity].
    + repeat split. exact Hgt.
Qed.

End PollingExit.

(** X2.  What the polling loop hands over tells how it ended.  A status
    that is complete was found by a request made while the sleeps so far
    were within [max_wait_ms], and no sleep follows that request.  A status
    that is not complete, or no status at all, means the loop gave up: the
    sleeps have passed [max_wait_ms], every request was followed by a
    sleep, and without a status no request was made ([max_wait_ms] is
    negative). *)
Theorem poll_result_tells_exit
    (lib : Library) (w : World) (url : string) (hdr : headers)
    (max_wait_ms sleep_ms : Z) (fuel : nat) (s s' : state) (r : option json) :
  poll lib w fuel url hdr max_wait_ms sleep_ms 0 None s = Some (Ok r, s') ->
  exists evs,
    history s' = (history s ++ evs)%list
    /\ match r with
       | Some st =>
           if is_complete st
           then (slept evs <= max_wait_ms)%Z /\ count_gets evs = S (count_sleeps evs)
           else (max_wait_ms < slept evs)%Z /\ count_gets evs = count_sleeps evs
       | None => (max_wait_ms < 0)%Z /\ evs = []
       end.
Proof.
  intros Hrun.
  destruct (poll_exit lib w url hdr max_wait_ms sleep_ms fuel 0%Z None r s s' I Hrun)
    as (evs & Hh & Hr).
  exists evs. split; [exact Hh|].
  destruct r as [st|]; [destruct (is_complete st); exact Hr | tauto].
Qed.

Lemma poll_result_tells_exit_witness :
  exists evs,
    (slept evs <= 20000)%Z /\ count_gets evs = 3%nat /\ count_sleeps evs = 2%nat.
Proof.
  destruct (poll_result_tells_exit sample_library
              (sample_world (mkScenario 200 (Some 2%nat) false false))
              (sample_base ++ "responseexports/ES_1") (api_token_header sample_client)
              20000 1 10 sample_state
              (mkState sample_client
                 [EvGet (sample_base ++ "responseexports/ES_1") (api_token_header sample_client);
                  EvSleep 1;
                  EvGet (sample_base ++ "responseexports/ES_1") (api_token_header sample_client);
                  EvSleep 1;
                  EvGet (sample_base ++ "responseexports/ES_1") (api_token_header sample_client)])
              (Some (sample_status 100)) eq_refl) as (evs & Hh & Hslept & Hcount).
  exists evs. simpl in Hh. subst evs. split; [exact Hslept|]. split; reflexivity.
Defined.

(** X3.  With a negative [max_wait_ms] the body of the loop never runs:
    after a successful submission the method asks for no status at all and
    ends with [UnboundLocalError] for [response_status_json], the [POST]
    being its only request. *)
Theorem negative_wait_raises_unbound
    (lib : Library) (w : World) (fuel : nat) (survey_token survey_name : string)
    (write_to_disk and_get_survey : bool) (result_format : string)
    (max_wait_ms sleep_ms : Z) (kwargs : list (string * json)) (s : state)
    (resp : Response) (posted res : json) (id : string) :
  let full_url := base_url (self s) ++ "responseexports" in
  let form := JDict (export_form_fields survey_token result_format kwargs) in
  let hdr := api_token_header (self s) in
  requests_post w (history s) full_url form hdr = Ok resp ->
  ok resp = true ->
  json_loads lib (content resp) = Ok posted ->
  getitem posted "result" = Ok res ->
  getitem res "id" = Ok (JStr id) ->
  (max_wait_ms < 0)%Z ->
  get_responseexports lib w (S fuel) survey_token survey_name write_to_disk and_get_survey
    result_format max_wait_ms sleep_ms kwargs s
  = Some (Raise (UnboundLocalError "response_status_json"),
          mkState (self s) (history s ++ [EvPost full_url form hdr])).
Proof.
  intros full_url form hdr Hpost Hok Hposted Hres Hid Hneg.
  unfold get_responseexports.
  rewrite (bind_ok get_self _ _ s (self s)) by reflexivity.
  erewrite bind_ok by (unfold call; fold full_url form hdr; rewrite Hpost; reflexivity).
  rewrite Hok. unfold fetch_export. unfold bind at 1.
  rewrite (bind_ok get_self _ _ _ (self s)) by reflexivity.
  erewrite bind_lift_ok by reflexivity.
  rewrite (bind_lift_ok _ _ _ posted Hposted), (bind_lift_ok _ _ _ res Hres),
    (bind_lift_ok _ _ _ (JStr id) Hid).
  erewrite bind_ok by reflexivity.
  simpl poll. destruct (Z.leb_spec 0 max_wait_ms) as [Hle|_]; [lia|].
  reflexivity.
Qed.

Lemma negative_wait_raises_unbound_witness :
  get_responseexports sample_library (sample_world (mkScenario 200 (Some 0%nat) false false))
    1 "SV_1" "Survey 1" false false "json" (-1) 1 [] sample_state
  = Some (Raise (UnboundLocalError "response_status_json"),
          mkState sample_client
            [EvPost (sample_base ++ "responseexports")
               (JDict (export_form_fields "SV_1" "json" []))
               (api_token_header sample_client)]).
Proof.
  apply (negative_wait_raises_unbound sample_library
           (sample_world (mkScenario 200 (Some 0%nat) false false))
           0 "SV_1" "Survey 1" false false "json" (-1) 1 [] sample_state
           (mkResponse 200 "posted") (JDict [("result", JDict [("id", JStr "ES_1")])])
           (JDict [("id", JStr "ES_1")]) "ES_1"); try reflexivity.
Defined.

(** ** The survey definition, continued *)

(** X4.  [get_survey] does not look at the status of the response: an
    answer with an error status whose body parses to a document with a
    [result] field is returned like a successful one. *)
Theorem get_survey_ignores_status
    (lib : Library) (w : World) (survey_token survey_name : string) (s : state)
    (resp : Response) (parsed v : json) :
  let url := base_url (self s) ++ "surveys/" ++ survey_token in
  let hdr := api_token_header (self s) in
  requests_get w (history s) url hdr = Ok resp ->
  is_error_status resp = true ->
  json_loads lib (content resp) = Ok parsed ->
  getitem parsed "result" = Ok v ->
  get_survey lib w survey_token survey_name false s
  = Some (Ok v, mkState (self s)
                  (history s ++ [EvGet url hdr;
                                 EvPrint ("Retrieved survey data for " ++ survey_name)])).
Proof.
  intros url hdr Hget _ Hparsed Hv. unfold get_survey.
  rewrite (bind_ok get_self _ s s (self s)) by reflexivity.
  erewrite bind_ok by (unfold call; fold url hdr; rewrite Hget; reflexivity).
  rewrite (bind_lift_ok _ _ _ parsed Hparsed), (bind_lift_ok _ _ _ v Hv).
  unfold bind, print, call, ret. simpl. rewrite <- app_assoc. reflexivity.
Qed.

Lemma get_survey_ignores_status_witness :
  get_survey (mkLibrary (fun _ => Ok (JDict [("result", JStr "gone")]))
                (zipfile_ZipFile sample_library) (DataFrame_of_list sample_library))
    (mkWorld (requests_post (sample_world (mkScenario 200 None false false)))
       (fun _ _ _ => Ok (mkResponse 404 "body"))
       (datetime_now (sample_world (mkScenario 200 None false false)))
       (fun p => p) (fun p => p) (fun _ _ => true) (fun _ _ => true)
       (fun _ _ => Ok tt) (fun _ _ => Ok tt) (fun _ _ _ => Ok tt) (fun _ _ => Ok tt)
       (fun _ _ _ => Ok tt))
    "SV_1" "Survey 1" false sample_state
  = Some (Ok (JStr "gone"),
          mkState sample_client
            [EvGet (sample_base ++ "surveys/SV_1") (api_token_header sample_client);
             EvPrint "Retrieved survey data for Survey 1"]).
Proof.
  apply (get_survey_ignores_status _ _ "SV_1" "Survey 1" sample_state
           (mkResponse 404 "body") (JDict [("result", JStr "gone")]) (JStr "gone"));
    reflexivity.
Defined.

(** X5.  When the body of the answer is not JSON, or is JSON without a
    usable [result] field, [get_survey] ends with the exception of the
    decoding or of the lookup ([KeyError] for a missing key): it has made
    its one request and nothing else, also when it was to write to disk. *)
Theorem get_survey_without_result
    (lib : Library) (w : World) (survey_token survey_name : string)
    (write_to_disk : bool) (s : state) (resp : Response) (e : exn) :
  let url := base_url (self s) ++ "surveys/" ++ survey_token in
  let hdr := api_token_header (self s) in
  requests_get w (history s) url hdr = Ok resp ->
  (json_loads lib (content resp) = Raise e
   \/ exists parsed, json_loads lib (content resp) = Ok parsed
                     /\ getitem parsed "result" = Raise e) ->
  get_survey lib w survey_token survey_name write_to_disk s
  = Some (Raise e, mkState (self s) (history s ++ [EvGet url hdr])).
Proof.
  intros url hdr Hget Hbad. unfold get_survey.
  rewrite (bind_ok get_self _ s s (self s)) by reflexivity.
  erewrite bind_ok by (unfold call; fold url hdr; rewrite Hget; reflexivity).
  destruct Hbad as [Hparsed|(parsed & Hparsed & Hv)].
  - unfold bind, lift. rewrite Hparsed. reflexivity.
  - rewrite (bind_lift_ok _ _ _ parsed Hparsed). unfold bind at 1. unfold bind at 1.
    unfold lift. rewrite Hv. reflexivity.
Qed.

Lemma get_survey_without_result_witness :
  get_survey (mkLibrary (fun _ => Ok (JDict [("meta", JNull)]))
                (zipfile_ZipFile sample_library) (DataFrame_of_list sample_library))
    (sample_world (mkScenario 200 None false false))
    "SV_1" "Survey 1" true sample_state
  = Some (Raise (KeyError "result"),
          mkState sample_client
            [EvGet (sample_base ++ "surveys/SV_1") (api_token_header sample_client)]).
Proof.
  apply (get_survey_without_result _ _ "SV_1" "Survey 1" true sample_state
           (mkResponse 200 "survey") (KeyError "result")); [reflexivity|].
  right. exists (JDict [("meta", JNull)]). split; reflexivity.
Defined.

(** ** What the methods do to the object *)

Section PreservesSelf.

Context {A : Type}.

Lemma preserves_ret (a : A) : preserves_self (ret a).
Proof. intros s out s' H. inversion H. reflexivity. Qed.

Lemma preserves_raise (e : exn) : preserves_self (@raise A e).
Proof. intros s out s' H. inversion H. reflexivity. Qed.

Lemma preserves_lift (r : result A) : preserves_self (lift r).
Proof. intros s out s' H. inversion H. reflexivity. Qed.

Lemma preserves_ask (answer : list event -> A) : preserves_self (ask answer).
Proof. intros s out s' H. inversion H. reflexivity. Qed.

Lemma preserves_call (ev : event) (answer : list event -> result A) :
  preserves_self (call ev answer).
Proof. intros s out s' H. inversion H. reflexivity. Qed.

Lemma preserves_bind {B : Type} (m : M B) (k : B -> M A) :
  preserves_self m -> (forall b, preserves_self (k b)) -> preserves_self (bind m k).
Proof.
  intros Hm Hk s out s'. unfold bind.
  destruct (m s) as [[[b|e] s1]|] eqn:Hrun; [| |discriminate].
  - intros H. rewrite (Hk b s1 out s' H). exact (Hm s _ s1 Hrun).
  - intros H. inversion H; subst. exact (Hm s _ s' Hrun).
Qed.

Lemma preserves_try_except (body : M A) (handler : exn -> M A) :
  preserves_self body -> (forall e, preserves_self (handler e)) ->
  preserves_self (try_except body handler).
Proof.
  intros Hb Hh s out s'. unfold try_except.
  destruct (body s) as [[[a|e] s1]|] eqn:Hrun; [| |discriminate].
  - intros H. inversion H; subst. exact (Hb s _ s' Hrun).
  - intros H. rewrite (Hh e s1 out s' H). exact (Hb s _ s1 Hrun).
Qed.

Lemma preserves_with_open (w : World) (path : string) (body : M A) :
  preserves_self body -> preserves_self (with_open w path body).
Proof.
  intros Hb s out s'. unfold with_open, call.
  destruct (file_open w (history s) path) as [[]|e].
  - destruct (body _) as [[r s2]|] eqn:Hrun; [|discriminate].
    apply Hb in Hrun. simpl in Hrun.
    destruct (file_close w (history s2) path) as [[]|e];
      intros H; inversion H; subst; exact Hrun.
  - intros H. inversion H. reflexivity.
Qed.

End PreservesSelf.

Lemma preserves_get_self : preserves_self get_self.
Proof. intros s out s' H. inversion H. reflexivity. Qed.

Ltac preserves_step :=
  match goal with
  | |- preserves_self (bind _ _) => apply preserves_bind; [|intros]
  | |- preserves_self (ret _) => apply preserves_ret
  | |- preserves_self (raise _) => apply preserves_raise
  | |- preserves_self (lift _) => apply preserves_lift
  | |- preserves_self (ask _) => apply preserves_ask
  | |- preserves_self get_self => apply preserves_get_self
  | |- preserves_self (print _) => apply preserves_call
  | |- preserves_self (call _ _) => apply preserves_call
  | |- preserves_self (time_sleep _) => unfold time_sleep
  | |- preserves_self (raise_for_status _) => unfold raise_for_status
  | |- preserves_self (try_except _ _) => apply preserves_try_except; [|intros]
  | |- preserves_self (with_open _ _ _) => apply preserves_with_open
  | |- preserves_self (if ?b then _ else _) => destruct b
  | |- preserves_self (match ?x with _ => _ end) => destruct x
  | |- preserves_self (let (_, _) := ?x in _) => destruct x
  end.

Lemma preserves_setup_output_filename (w : World)
    (base_path survey_name type extension : string) :
  preserves_self (setup_output_filename w base_path survey_name type extension).
Proof. unfold setup_output_filename. repeat preserves_step. Qed.

Lemma preserves_write_json_to_disk (w : World) (json_data : json) (path : string) :
  preserves_self (write_json_to_disk w json_data path).
Proof. unfold write_json_to_disk. repeat preserves_step. Qed.

Lemma preserves_write_df_to_disk (w : World) (df : DataFrame)
    (survey_name url_suffix : string) :
  preserves_self (write_df_to_disk w df survey_name url_suffix).
Proof.
  unfold write_df_to_disk.
  repeat first [apply preserves_setup_output_filename | preserves_step].
Qed.

Lemma preserves_poll (lib : Library) (w : World) (url : string) (hdr : headers)
    (max_wait_ms sleep_ms : Z) (fuel : nat) :
  forall c last, preserves_self (poll lib w fuel url hdr max_wait_ms sleep_ms c last).
Proof.
  induction fuel as [|fuel IH]; intros c last; simpl.
  - intros s out s' H. discriminate.
  - repeat first [apply IH | preserves_step].
Qed.

Lemma preserves_fetch_export (lib : Library) (w : World) (fuel : nat) (url_suffix : string)
    (resp : Response) (max_wait_ms sleep_ms : Z) :
  preserves_self (fetch_export lib w fuel url_suffix resp max_wait_ms sleep_ms).
Proof.
  unfold fetch_export. repeat first [apply preserves_poll | preserves_step].
Qed.

(** X6.  [get_responseexports] without the survey download leaves the
    attributes of the client as they were, however it ends: writing the
    table normalises a copy of the output path, not the attribute. *)
Theorem get_responseexports_keeps_client
    (lib : Library) (w : World) (fuel : nat) (survey_token survey_name : string)
    (write_to_disk : bool) (result_format : string)
    (max_wait_ms sleep_ms : Z) (kwargs : list (string * json))
    (s s' : state) (out : result (json * string)) :
  get_responseexports lib w fuel survey_token survey_name write_to_disk false
    result_format max_wait_ms sleep_ms kwargs s = Some (out, s') ->
  self s' = self s.
Proof.
  revert s out s'.
  change (preserves_self (get_responseexports lib w fuel survey_token survey_name
                            write_to_disk false result_format max_wait_ms sleep_ms kwargs)).
  unfold get_responseexports.
  repeat first [ apply preserves_fetch_export | apply preserves_write_df_to_disk
               | preserves_step ].
Qed.

Lemma get_responseexports_keeps_client_witness :
  exists out s',
    get_responseexports sample_library (sample_world (mkScenario 200 (Some 1%nat) false false))
      10 "SV_1" "Survey 1" true false "json" 20000 1 [] sample_state = Some (out, s')
    /\ self s' = sample_client.
Proof.
  assert (Hrun : exists out s',
    get_responseexports sample_library (sample_world (mkScenario 200 (Some 1%nat) false false))
      10 "SV_1" "Survey 1" true false "json" 20000 1 [] sample_state = Some (out, s'))
    by (vm_compute; eauto).
  destruct Hrun as (out & s' & Hrun). exists out, s'. split; [exact Hrun|].
  exact (get_responseexports_keeps_client _ _ _ _ _ _ _ _ _ _ _ _ _ Hrun).
Defined.

Lemma bind_assoc {A B C : Type} (m : M A) (k : A -> M B) (k' : B -> M C) (s : state) :
  bind (bind m k) k' s = bind m (fun a => bind (k a) k') s.
Proof. unfold bind. destruct (m s) as [[[a|e] s1]|]; reflexivity. Qed.

Lemma get_survey_keeps_client_without_writing
    (lib : Library) (w : World) (survey_token survey_name : string) :
  preserves_self (get_survey lib w survey_token survey_name false).
Proof. unfold get_survey. repeat preserves_step. Qed.

(** X7.  [get_survey] changes the client when it writes to disk: once the
    answer is parsed and the output path, a non-empty string, names a
    directory, the attribute [path_to_output_files] ends with a separator,
    added when it was missing, however the writing itself ends; the other
    attributes stay.  Without writing the client is left as it was. *)
Theorem get_survey_normalises_stored_path
    (lib : Library) (w : World) (survey_token survey_name : string) (s : state)
    (resp : Response) (parsed v : json) (p : string) (c : ascii) :
  let url := base_url (self s) ++ "surveys/" ++ survey_token in
  let hdr := api_token_header (self s) in
  requests_get w (history s) url hdr = Ok resp ->
  json_loads lib (content resp) = Ok parsed ->
  getitem parsed "result" = Ok v ->
  path_to_output_files (self s) = PathStr p ->
  os_path_isdir w (history s ++ [EvGet url hdr]) (os_path_realpath w p) = true ->
  str_last p = Ok c ->
  (exists out s',
     get_survey lib w survey_token survey_name true s = Some (out, s')
     /\ self s' = with_path (self s) (PathStr (with_separator p c)))
  /\ (forall out s',
        get_survey lib w survey_token survey_name false s = Some (out, s') ->
        self s' = self s).
Proof.
  intros url hdr Hget Hparsed Hv Hpath Hisdir Hlast. split.
  - destruct (get_survey_trace lib w survey_token survey_name true s)
      as (out & s' & _ & Hrun & _).
    exists out, s'. split; [exact Hrun|].
    unfold get_survey in Hrun.
    rewrite (bind_ok get_self _ s s (self s)) in Hrun by reflexivity.
    erewrite bind_ok in Hrun
      by (unfold call; fold url hdr; rewrite Hget; reflexivity).
    rewrite (bind_lift_ok _ _ _ parsed Hparsed), (bind_lift_ok _ _ _ v Hv) in Hrun.
    rewrite Hpath in Hrun. rewrite bind_assoc in Hrun.
    erewrite bind_ok in Hrun by reflexivity.
    simpl history in Hrun. fold url hdr in Hrun. rewrite Hisdir in Hrun.
    simpl negb in Hrun. cbv iota in Hrun.
    rewrite !bind_assoc in Hrun.
    erewrite bind_lift_ok in Hrun by (unfold last_differs; rewrite Hlast; reflexivity).
    unfold with_separator. destruct (Ascii.eqb c slash); simpl negb in Hrun;
      cbv iota in Hrun.
    + erewrite bind_ok in Hrun by reflexivity.
      match type of Hrun with
      | ?m ?st = _ =>
          assert (Hp : preserves_self m)
            by (repeat first [ apply preserves_setup_output_filename
                             | apply preserves_write_json_to_disk | preserves_step ]);
          apply Hp in Hrun
      end.
      simpl in Hrun. rewrite Hrun. clear - Hpath.
      destruct (self s); simpl in *; subst; reflexivity.
    + rewrite !bind_assoc in Hrun. erewrite bind_ok in Hrun by reflexivity.
      erewrite bind_ok in Hrun by reflexivity.
      match type of Hrun with
      | ?m ?st = _ =>
          assert (Hp : preserves_self m)
            by (repeat first [ apply preserves_setup_output_filename
                             | apply preserves_write_json_to_disk | preserves_step ]);
          apply Hp in Hrun
      end.
      simpl in Hrun. rewrite Hrun. reflexivity.
  - apply get_survey_keeps_client_without_writing.
Qed.

Lemma get_survey_normalises_stored_path_witness :
  exists out s',
    get_survey sample_library (sample_world (mkScenario 200 None false false))
      "SV_1" "Survey 1" true sample_state = Some (out, s')
    /\ path_to_output_files (self s') = PathStr "out/".
Proof.
  destruct (get_survey_normalises_stored_path sample_library
              (sample_world (mkScenario 200 None false false))
              "SV_1" "Survey 1" sample_state (mkResponse 200 "survey")
              (JDict [("result", sample_survey)]) sample_survey "out" "t"%char
              eq_refl eq_refl eq_refl eq_refl eq_refl eq_refl)
    as [(out & s' & Hrun & Hself) _].
  exists out, s'. split; [exact Hrun|]. rewrite Hself. reflexivity.
Defined.

(** ** Writing the table *)

(** X8.  [write_df_to_disk] checks the output path before it touches
    anything: a path that is not a string and a path that names no
    directory give the two [ValueError]s of the checks, and the empty
    string, when it resolves to a directory, gives the [IndexError] of
    [path_to_files[-1]]; in all three cases nothing has been done. *)
Theorem write_df_to_disk_guards
    (w : World) (df : DataFrame) (survey_name url_suffix : string) (s : state) :
  (path_to_output_files (self s) = PathOther ->
   write_df_to_disk w df survey_name url_suffix s
   = Some (Raise (ValueError "path_to_files argument must be a string"), s))
  /\ (forall p,
        path_to_output_files (self s) = PathStr p ->
        os_path_isdir w (history s) (os_path_realpath w p) = false ->
        write_df_to_disk w df survey_name url_suffix s
        = Some (Raise (ValueError invalid_path_message), s))
  /\ (path_to_output_files (self s) = PathStr EmptyString ->
      os_path_isdir w (history s) (os_path_realpath w EmptyString) = true ->
      write_df_to_disk w df survey_name url_suffix s = Some (Raise IndexError, s)).
Proof.
  unfold write_df_to_disk.
  rewrite (bind_ok get_self _ s s (self s)) by reflexivity.
  split; [|split].
  - intros ->. reflexivity.
  - intros p -> Hisdir. unfold bind, ask. rewrite Hisdir. reflexivity.
  - intros -> Hisdir. unfold bind, ask. rewrite Hisdir. reflexivity.
Qed.

Lemma write_df_to_disk_guards_witness :
  write_df_to_disk (sample_world (mkScenario 200 None false false))
    (mkDataFrame [] []) "Survey 1" "responseexports/"
    (mkState (with_path sample_client (PathStr "missing")) [])
  = Some (Raise (ValueError invalid_path_message),
          mkState (with_path sample_client (PathStr "missing")) []).
Proof.
  destruct (write_df_to_disk_guards (sample_world (mkScenario 200 None false false))
              (mkDataFrame [] []) "Survey 1" "responseexports/"
              (mkState (with_path sample_client (PathStr "missing")) []))
    as (_ & Hdir & _).
  apply (Hdir "missing"); reflexivity.
Defined.

(** X9.  On a path that passes the checks and a project folder that
    exists or can be made, [write_df_to_disk] hands the table to feather
    under the name [setup_output_filename] builds from the path with its
    separator, the part of [url_suffix] before the first slash and the
    extension [feather].  When feather succeeds the method prints the
    absolute path and returns the path; any exception of feather is
    replaced by the [ValueError] "Unable to write feather output to disk".
    For a path without a trailing separator the name is the path of the
    specification. *)
Theorem write_df_to_disk_outcome
    (w : World) (df : DataFrame) (survey_name url_suffix : string) (s : state)
    (p : string) (c : ascii) :
  let q := self s in
  let folder := with_separator p c ++ project_name q in
  let h1 := after_mkdir w folder (history s) in
  let today := stamp (use_timestamps q) (datetime_now w h1) in
  let path := folder ++ "/" ++ today ++ "_" ++ survey_name ++ "_" ++ split_head url_suffix
              ++ "." ++ "feather" in
  path_to_output_files q = PathStr p ->
  os_path_isdir w (history s) (os_path_realpath w p) = true ->
  str_last p = Ok c ->
  (os_path_exists w (history s) folder = true \/ os_mkdir w (history s) folder = Ok tt) ->
  write_df_to_disk w df survey_name url_suffix s
  = Some (match feather_write_dataframe w h1 df path with
          | Ok _ => Ok path
          | Raise _ => Raise (ValueError "Unable to write feather output to disk")
          end,
          mkState q
            (h1 ++ EvFeather df path
                :: match feather_write_dataframe w h1 df path with
                   | Ok _ => [EvPrint (os_path_abspath w path ++ " " ++ "written to disk")]
                   | Raise _ => []
                   end))
  /\ (c <> slash ->
      path = artifact_path p (project_name q) today survey_name (split_head url_suffix)
               "feather").
Proof.
  intros q folder h1 today path Hpath Hisdir Hlast Hfolder. split.
  - destruct s as [q0 h]. simpl in *. subst q.
    unfold write_df_to_disk.
    rewrite (bind_ok get_self _ _ (mkState q0 h) q0) by reflexivity.
    rewrite Hpath. erewrite bind_ok by reflexivity. simpl history. rewrite Hisdir.
    simpl negb. cbv iota. rewrite bind_assoc.
    erewrite bind_lift_ok by (unfold last_differs; rewrite Hlast; reflexivity).
    erewrite bind_ok by reflexivity.
    assert (Hsetup :
      setup_output_filename w (with_separator p c) survey_name (split_head url_suffix)
        "feather" (mkState q0 h) = Some (Ok path, mkState q0 h1)).
    { rewrite setup_output_filename_run. fold folder. unfold instant_read.
      fold folder h1 today path.
      destruct (os_path_exists w h folder); [reflexivity|].
      destruct Hfolder as [Hf|Hf]; [discriminate | rewrite Hf; reflexivity]. }
    unfold with_separator in Hsetup |- *.
    replace (if negb (Ascii.eqb c slash) then p ++ "/" else p)
      with (if Ascii.eqb c slash then p else p ++ "/")
      by (destruct (Ascii.eqb c slash); reflexivity).
    erewrite bind_ok by exact Hsetup.
    unfold bind, try_except, call, print, call, ret, raise. simpl.
    destruct (feather_write_dataframe w h1 df path) as [[]|e]; simpl.
    + rewrite <- app_assoc. reflexivity.
    + reflexivity.
  - intros Hc. unfold path, folder, with_separator, artifact_path.
    destruct (Ascii.eqb_spec c slash) as [Heq|_]; [contradiction|].
    rewrite !append_assoc. reflexivity.
Qed.

Lemma write_df_to_disk_outcome_witness :
  write_df_to_disk (sample_world (mkScenario 200 None false false))
    (mkDataFrame [LStr "q1"] [[Val (JStr "a")]]) "Survey 1" "responseexports/" sample_state
  = Some (Ok (artifact_path "out" "Project 1" "20161104" "Survey 1" "responseexports"
                "feather"),
          mkState sample_client
            [EvMkdir "out/Project 1";
             EvFeather (mkDataFrame [LStr "q1"] [[Val (JStr "a")]])
               "out/Project 1/20161104_Survey 1_responseexports.feather";
             EvPrint "/home/user/out/Project 1/20161104_Survey 1_responseexports.feather written to disk"]).
Proof.
  destruct (write_df_to_disk_outcome (sample_world (mkScenario 200 None false false))
              (mkDataFrame [LStr "q1"] [[Val (JStr "a")]]) "Survey 1" "responseexports/"
              sample_state "out" "t"%char eq_refl eq_refl eq_refl (or_intror eq_refl))
    as [Hrun _].
  exact Hrun.
Defined.

(** ** Writing JSON, continued *)

(** X10.  Once the destination is open, [write_json_to_disk] closes it on
    every path, as the last thing it does.  An exception of [close] is the
    one that leaves the method; otherwise a failure of [json.dump] gives
    the [ValueError] that names the absolute path, and a success prints the
    absolute path followed by "written to disk". *)
Theorem write_json_after_open
    (w : World) (json_data : json) (path : string) (s : state) :
  let h1 := (history s ++ [EvOpen path])%list in
  let h2 := (h1 ++ [EvDump json_data path])%list in
  let dumped := json_dump w h1 json_data path in
  let h3 := match dumped with
            | Ok _ => (h2 ++ [EvPrint (os_path_abspath w path ++ " " ++ "written to disk")])%list
            | Raise _ => h2
            end in
  file_open w (history s) path = Ok tt ->
  write_json_to_disk w json_data path s
  = Some (match file_close w h3 path with
          | Raise e => Raise e
          | Ok _ =>
              match dumped with
              | Ok _ => Ok tt
              | Raise _ => Raise (ValueError ("Unable to write json output to disk at "
                                              ++ os_path_abspath w path))
              end
          end,
          mkState (self s) (h3 ++ [EvClose path])).
Proof.
  intros h1 h2 dumped h3 Hopen.
  unfold write_json_to_disk, with_open, try_except, bind, print, call, raise. simpl.
  rewrite Hopen. fold h1. fold dumped. unfold h3.
  destruct dumped as [[]|e]; simpl; fold h2.
  - destruct (file_close w _ path) as [[]|e]; reflexivity.
  - destruct (file_close w h2 path) as [[]|e']; reflexivity.
Qed.

Lemma write_json_after_open_witness :
  write_json_to_disk (sample_world (mkScenario 200 None false false)) sample_survey
    "out/survey.json" sample_state
  = Some (Ok tt,
          mkState sample_client
            [EvOpen "out/survey.json"; EvDump sample_survey "out/survey.json";
             EvPrint "/home/user/out/survey.json written to disk";
             EvClose "out/survey.json"]).
Proof.
  exact (write_json_after_open (sample_world (mkScenario 200 None false false))
           sample_survey "out/survey.json" sample_state eq_refl).
Defined.

(** ** The constructor, continued *)

(** X11.  The constructor normalises the base URL once and for all: a
    base URL that ends with a slash is stored as it is, and a client built
    from the base URL of a client has the same base URL; the header holds
    the token and the content type [application/] followed by the given
    type, and the other arguments are stored unchanged. *)
Theorem init_normalises_once
    (api_token project base : string) (path : pathval) (ctype : string) (ts : bool)
    (q : Qualtrics) :
  __init__ api_token project base path ctype ts = Ok q ->
  __init__ api_token project (base_url q) path ctype ts = Ok q
  /\ (str_last base = Ok slash -> base_url q = base)
  /\ api_token_header q = [("x-api-token", api_token);
                           ("Content-Type", "application/" ++ ctype)]
  /\ project_name q = project
  /\ path_to_output_files q = path
  /\ use_timestamps q = ts.
Proof.
  unfold __init__, last_differs.
  destruct (str_last base) as [c|e] eqn:Hlast; [|discriminate].
  intros H. inversion H; subst q; clear H. simpl.
  destruct (Ascii.eqb_spec c slash) as [->|Hne]; simpl.
  - rewrite Hlast. simpl. repeat split.
  - rewrite str_last_app_char. rewrite Ascii.eqb_refl. simpl. repeat split.
    intros Heq. congruence.
Qed.

Lemma init_normalises_once_witness :
  exists q,
    __init__ "tok" "Project 1" "https://co1.qualtrics.com/API/v3" (PathStr "out") "json" false
    = Ok q
    /\ __init__ "tok" "Project 1" (base_url q) (PathStr "out") "json" false = Ok q.
Proof.
  eexists. split; [reflexivity|].
  apply (init_normalises_once "tok" "Project 1" "https://co1.qualtrics.com/API/v3"
           (PathStr "out") "json" false). reflexivity.
Defined.

(** X13.  [get_survey] checks the output path only after the request:
    with a path that is not a string, or that names no directory, it has
    fetched and parsed the survey when it raises the [ValueError] of the
    check, and the client and the disk are untouched. *)
Theorem get_survey_checks_path_late
    (lib : Library) (w : World) (survey_token survey_name : string) (s : state)
    (resp : Response) (parsed v : json) :
  let url := base_url (self s) ++ "surveys/" ++ survey_token in
  let hdr := api_token_header (self s) in
  let s1 := mkState (self s) (history s ++ [EvGet url hdr]) in
  requests_get w (history s) url hdr = Ok resp ->
  json_loads lib (content resp) = Ok parsed ->
  getitem parsed "result" = Ok v ->
  (path_to_output_files (self s) = PathOther ->
   get_survey lib w survey_token survey_name true s
   = Some (Raise (ValueError "path_to_files argument must be a string"), s1))
  /\ (forall p,
        path_to_output_files (self s) = PathStr p ->
        os_path_isdir w (history s1) (os_path_realpath w p) = false ->
        get_survey lib w survey_token survey_name true s
        = Some (Raise (ValueError invalid_path_message), s1)).
Proof.
  intros url hdr s1 Hget Hparsed Hv. unfold get_survey.
  rewrite (bind_ok get_self _ s s (self s)) by reflexivity.
  erewrite bind_ok by (unfold call; fold url hdr; rewrite Hget; reflexivity).
  rewrite (bind_lift_ok _ _ _ parsed Hparsed), (bind_lift_ok _ _ _ v Hv).
  fold s1. split.
  - intros ->. reflexivity.
  - intros p -> Hisdir. unfold bind, ask. rewrite Hisdir. reflexivity.
Qed.

Lemma get_survey_checks_path_late_witness :
  get_survey sample_library (sample_world (mkScenario 200 None false false))
    "SV_1" "Survey 1" true (mkState (with_path sample_client PathOther) [])
  = Some (Raise (ValueError "path_to_files argument must be a string"),
          mkState (with_path sample_client PathOther)
            [EvGet (sample_base ++ "surveys/SV_1") (api_token_header sample_client)]).
Proof.
  destruct (get_survey_checks_path_late sample_library
              (sample_world (mkScenario 200 None false false)) "SV_1" "Survey 1"
              (mkState (with_path sample_client PathOther) [])
              (mkResponse 200 "survey") (JDict [("result", sample_survey)]) sample_survey
              eq_refl eq_refl eq_refl) as [Hother _].
  exact (Hother eq_refl).
Defined.

(** ** The export, continued *)

Section Download.

Variable lib : Library.
Variable w : World.

(** The method once the polling loop has handed over a status with a file. *)
Lemma get_responseexports_after_poll
    (fuel : nat) (survey_token survey_name : string)
    (write_to_disk and_get_survey : bool) (result_format : string)
    (max_wait_ms sleep_ms : Z) (kwargs : list (string * json)) (s s2 : state)
    (resp r : Response) (posted res status sres : json) (id file_url : string)
    (out : result (string * string)) (s3 : state) :
  let q := self s in
  let hdr := api_token_header q in
  let full_url := base_url q ++ "responseexports" in
  let form := JDict (export_form_fields survey_token result_format kwargs) in
  requests_post w (history s) full_url form hdr = Ok resp ->
  ok resp = true ->
  json_loads lib (content resp) = Ok posted ->
  getitem posted "result" = Ok res ->
  getitem res "id" = Ok (JStr id) ->
  poll lib w fuel (base_url q ++ "responseexports/" ++ id) hdr max_wait_ms sleep_ms 0 None
    (mkState q (history s ++ [EvPost full_url form hdr])) = Some (Ok (Some status), s2) ->
  getitem status "result" = Ok sres ->
  getitem sres "file" = Ok (JStr file_url) ->
  requests_get w (history s2) file_url hdr = Ok r ->
  (z <- lift (zipfile_ZipFile lib (content r)) ;;
   name <- match NameToInfo_keys z with
           | first :: _ => ret first
           | [] => raise IndexError
           end ;;
   response_data <- lift (zip_read z name) ;;
   ret ("responseexports/", response_data))
    (mkState (self s2) (history s2 ++ [EvGet file_url hdr])) = Some (out, s3) ->
  fetch_export lib w fuel "responseexports" resp max_wait_ms sleep_ms
    (mkState q (history s ++ [EvPost full_url form hdr])) = Some (out, s3).
Proof.
  intros q hdr full_url form Hpost Hok Hposted Hres Hid Hpoll Hsres Hfile Hget Hrest.
  unfold fetch_export.
  rewrite (bind_ok get_self _ _ _ q) by reflexivity.
  erewrite bind_lift_ok by reflexivity.
  rewrite (bind_lift_ok _ _ _ posted Hposted), (bind_lift_ok _ _ _ res Hres),
    (bind_lift_ok _ _ _ (JStr id) Hid).
  erewrite bind_ok by reflexivity.
  erewrite bind_ok by exact Hpoll.
  erewrite bind_ok by reflexivity.
  rewrite (bind_lift_ok _ _ _ sres Hsres), (bind_lift_ok _ _ _ (JStr file_url) Hfile).
  erewrite bind_ok by (unfold call; fold hdr; rewrite Hget; reflexivity).
  exact Hrest.
Qed.

End Download.

Lemma bind_raises {A B : Type} (m : M A) (k : A -> M B) (s s' : state) (e : exn) :
  m s = Some (Raise e, s') -> bind m k s = Some (Raise e, s').
Proof. intros H. unfold bind. rewrite H. reflexivity. Qed.

(** X14.  The download is not checked before it is opened: when the body
    of the file is no zip archive the exception of [ZipFile] leaves the
    method, and an archive without entries gives the [IndexError] of
    [keys()[0]].  Nothing has been parsed, written or printed then. *)
Theorem unusable_archive_raises
    (lib : Library) (w : World) (fuel : nat) (survey_token survey_name : string)
    (write_to_disk and_get_survey : bool) (result_format : string)
    (max_wait_ms sleep_ms : Z) (kwargs : list (string * json)) (s s2 : state)
    (resp r : Response) (posted res status sres : json) (id file_url : string)
    (e : exn) :
  let q := self s in
  let hdr := api_token_header q in
  let full_url := base_url q ++ "responseexports" in
  let form := JDict (export_form_fields survey_token result_format kwargs) in
  requests_post w (history s) full_url form hdr = Ok resp ->
  ok resp = true ->
  json_loads lib (content resp) = Ok posted ->
  getitem posted "result" = Ok res ->
  getitem res "id" = Ok (JStr id) ->
  poll lib w fuel (base_url q ++ "responseexports/" ++ id) hdr max_wait_ms sleep_ms 0 None
    (mkState q (history s ++ [EvPost full_url form hdr])) = Some (Ok (Some status), s2) ->
  getitem status "result" = Ok sres ->
  getitem sres "file" = Ok (JStr file_url) ->
  requests_get w (history s2) file_url hdr = Ok r ->
  (zipfile_ZipFile lib (content r) = Raise e
   \/ exists z, zipfile_ZipFile lib (content r) = Ok z
                /\ NameToInfo_keys z = [] /\ e = IndexError) ->
  get_responseexports lib w fuel survey_token survey_name write_to_disk and_get_survey
    result_format max_wait_ms sleep_ms kwargs s
  = Some (Raise e, mkState (self s2) (history s2 ++ [EvGet file_url hdr])).
Proof.
  intros q hdr full_url form Hpost Hok Hposted Hres Hid Hpoll Hsres Hfile Hget Hzip.
  unfold get_responseexports.
  rewrite (bind_ok get_self _ _ s q) by reflexivity.
  erewrite bind_ok by (unfold call; fold q hdr full_url form; rewrite Hpost; reflexivity).
  rewrite Hok. apply bind_raises.
  eapply (get_responseexports_after_poll lib w); try eassumption.
  destruct Hzip as [Hzip|(z & Hzip & Hkeys & ->)].
  - unfold bind, lift. rewrite Hzip. reflexivity.
  - rewrite (bind_lift_ok _ _ _ z Hzip). rewrite Hkeys. reflexivity.
Qed.

Lemma unusable_archive_raises_witness :
  exists s',
    get_responseexports
      (mkLibrary (json_loads sample_library)
         (fun _ => Ok (mkZipFile [] (fun _ => Raise (KeyError "no such entry"))))
         (DataFrame_of_list sample_library))
      (sample_world (mkScenario 200 (Some 0%nat) false false))
      10 "SV_1" "Survey 1" true true "json" 20000 1 [] sample_state
    = Some (Raise IndexError, s')
    /\ count_gets (history s') = 2%nat.
Proof.
  eexists. split.
  - eapply (unusable_archive_raises
              (mkLibrary (json_loads sample_library)
                 (fun _ => Ok (mkZipFile [] (fun _ => Raise (KeyError "no such entry"))))
                 (DataFrame_of_list sample_library))
              (sample_world (mkScenario 200 (Some 0%nat) false false))
              10 "SV_1" "Survey 1" true true "json" 20000 1 [] sample_state).
    + reflexivity.
    + reflexivity.
    + reflexivity.
    + reflexivity.
    + reflexivity.
    + reflexivity.
    + reflexivity.
    + reflexivity.
    + reflexivity.
    + right. eexists. split; [reflexivity|]. split; reflexivity.
  - reflexivity.
Defined.

(** X15.  The value of [responses] is checked only when a table is to be
    written: a value that is neither a list nor a dictionary is returned as
    it is without writing to disk, and with writing to disk it gives the
    [ValueError] of [create_df_from_api_data] after the download, before
    anything is written. *)
Theorem responses_checked_only_for_table
    (lib : Library) (w : World) (fuel : nat) (survey_token survey_name : string)
    (and_get_survey : bool) (result_format : string)
    (max_wait_ms sleep_ms : Z) (kwargs : list (string * json)) (s s2 : state)
    (resp : Response) (url_suffix response_data : string) (parsed v : json) :
  let q := self s in
  let hdr := api_token_header q in
  let full_url := base_url q ++ "responseexports" in
  let form := JDict (export_form_fields survey_token result_format kwargs) in
  requests_post w (history s) full_url form hdr = Ok resp ->
  ok resp = true ->
  fetch_export lib w fuel "responseexports" resp max_wait_ms sleep_ms
    (mkState q (history s ++ [EvPost full_url form hdr]))
  = Some (Ok (url_suffix, response_data), s2) ->
  json_loads lib response_data = Ok parsed ->
  getitem parsed "responses" = Ok v ->
  is_list_or_dict v = false ->
  get_responseexports lib w fuel survey_token survey_name true and_get_survey
    result_format max_wait_ms sleep_ms kwargs s
  = Some (Raise (ValueError "Need to add a new type of dataframe object value to the code."),
          s2)
  /\ get_responseexports lib w fuel survey_token survey_name false false
       result_format max_wait_ms sleep_ms kwargs s
     = Some (Ok (v, " "),
             mkState (self s2)
               (history s2 ++ [EvPrint ("Retrieved responseexports data for "
                                        ++ survey_name)])).
Proof.
  intros q hdr full_url form Hpost Hok Hfetch Hparsed Hv Hshape.
  split; unfold get_responseexports;
    rewrite (bind_ok get_self _ _ s q) by reflexivity;
    (erewrite bind_ok
       by (unfold call; fold q hdr full_url form; rewrite Hpost; reflexivity));
    rewrite Hok; (erewrite bind_ok by exact Hfetch); cbv beta iota;
    rewrite (bind_lift_ok _ _ _ parsed Hparsed), (bind_lift_ok _ _ _ v Hv).
  - apply bind_raises. apply bind_raises.
    destruct v; try discriminate; reflexivity.
  - reflexivity.
Qed.

Lemma responses_checked_only_for_table_witness :
  exists s',
    get_responseexports
      (mkLibrary (fun body => if body =? "export" then Ok (JDict [("responses", JNum 5)])
                              else json_loads sample_library body)
         (zipfile_ZipFile sample_library) (DataFrame_of_list sample_library))
      (sample_world (mkScenario 200 (Some 0%nat) false false))
      10 "SV_1" "Survey 1" true false "json" 20000 1 [] sample_state
    = Some (Raise (ValueError "Need to add a new type of dataframe object value to the code."),
            s')
    /\ count_gets (history s') = 2%nat.
Proof.
  eexists. split.
  - eapply (responses_checked_only_for_table
              (mkLibrary (fun body => if body =? "export"
                                      then Ok (JDict [("responses", JNum 5)])
                                      else json_loads sample_library body)
                 (zipfile_ZipFile sample_library) (DataFrame_of_list sample_library))
              (sample_world (mkScenario 200 (Some 0%nat) false false))
              10 "SV_1" "Survey 1" false "json" 20000 1 [] sample_state).
    + reflexivity.
    + reflexivity.
    + vm_compute. reflexivity.
    + reflexivity.
    + reflexivity.
    + reflexivity.
  - reflexivity.
Defined.

(** * The methods when the writing succeeds *)

Lemma write_json_to_disk_written (w : World) (data : json) (path : string) (s : state) :
  file_open w (history s) path = Ok tt ->
  json_dump w (history s ++ [EvOpen path]) data path = Ok tt ->
  file_close w (history s ++ [EvOpen path; EvDump data path;
                              EvPrint (os_path_abspath w path ++ " " ++ "written to disk")])
    path = Ok tt ->
  write_json_to_disk w data path s
  = Some (Ok tt, mkState (self s) (history s ++ json_written w data path)).
Proof.
  intros Hopen Hdump Hclose.
  unfold write_json_to_disk, with_open, try_except, bind, print, call, raise. simpl.
  rewrite Hopen, Hdump. simpl. rewrite <- !app_assoc. simpl.
  simpl in Hclose. rewrite Hclose. reflexivity.
Qed.

Lemma write_df_to_disk_written (w : World) (df : DataFrame)
    (survey_name url_suffix : string) (s : state) (p : string) (c : ascii) :
  let folder := project_folder (self s) p c in
  let path := artifact_file w (self s) folder (history s) survey_name
                (split_head url_suffix) "feather" in
  path_to_output_files (self s) = PathStr p ->
  os_path_isdir w (history s) (os_path_realpath w p) = true ->
  str_last p = Ok c ->
  (os_path_exists w (history s) folder = true \/ os_mkdir w (history s) folder = Ok tt) ->
  feather_write_dataframe w (after_mkdir w folder (history s)) df path = Ok tt ->
  write_df_to_disk w df survey_name url_suffix s
  = Some (Ok path,
          mkState (self s) (after_mkdir w folder (history s) ++ table_written w df path)).
Proof.
  intros folder path Hpath Hisdir Hlast Hfolder Hfeather.
  destruct s as [q h]. simpl in *.
  unfold write_df_to_disk.
  rewrite (bind_ok get_self _ _ (mkState q h) q) by reflexivity.
  rewrite Hpath. erewrite bind_ok by reflexivity. simpl history. rewrite Hisdir.
  simpl negb. cbv iota. rewrite bind_assoc.
  erewrite bind_lift_ok by (unfold last_differs; rewrite Hlast; reflexivity).
  erewrite bind_ok by reflexivity.
  assert (Hsetup :
    setup_output_filename w (with_separator p c) survey_name (split_head url_suffix)
      "feather" (mkState q h) = Some (Ok path, mkState q (after_mkdir w folder h))).
  { rewrite setup_output_filename_run. unfold instant_read.
    change (with_separator p c ++ project_name q) with folder.
    destruct (os_path_exists w h folder); [reflexivity|].
    destruct Hfolder as [Hf|Hf]; [discriminate | rewrite Hf; reflexivity]. }
  unfold with_separator in Hsetup.
  replace (if negb (Ascii.eqb c slash) then p ++ "/" else p)
    with (if Ascii.eqb c slash then p else p ++ "/")
    by (destruct (Ascii.eqb c slash); reflexivity).
  erewrite bind_ok by exact Hsetup.
  unfold bind, try_except, call, print, call, ret, raise. simpl.
  rewrite Hfeather. simpl. rewrite <- app_assoc. reflexivity.
Qed.

Lemma with_path_same (q : Qualtrics) (p : pathval) :
  path_to_output_files q = p -> with_path q p = q.
Proof. destruct q. simpl. intros ->. reflexivity. Qed.

Lemma get_survey_written (lib : Library) (w : World) (survey_token survey_name : string)
    (s : state) (resp : Response) (parsed v : json) (p : string) (c : ascii) :
  let url := base_url (self s) ++ "surveys/" ++ survey_token in
  let hdr := api_token_header (self s) in
  let h1 := (history s ++ [EvGet url hdr])%list in
  let folder := project_folder (self s) p c in
  let path := artifact_file w (self s) folder h1 survey_name "survey" "json" in
  let h2 := after_mkdir w folder h1 in
  requests_get w (history s) url hdr = Ok resp ->
  json_loads lib (content resp) = Ok parsed ->
  getitem parsed "result" = Ok v ->
  path_to_output_files (self s) = PathStr p ->
  os_path_isdir w h1 (os_path_realpath w p) = true ->
  str_last p = Ok c ->
  (os_path_exists w h1 folder = true \/ os_mkdir w h1 folder = Ok tt) ->
  file_open w h2 path = Ok tt ->
  json_dump w (h2 ++ [EvOpen path]) v path = Ok tt ->
  file_close w (h2 ++ [EvOpen path; EvDump v path;
                       EvPrint (os_path_abspath w path ++ " " ++ "written to disk")])
    path = Ok tt ->
  get_survey lib w survey_token survey_name true s
  = Some (Ok v, mkState (with_path (self s) (PathStr (with_separator p c)))
                  (h2 ++ json_written w v path)).
Proof.
  intros url hdr h1 folder path h2 Hget Hparsed Hv Hpath Hisdir Hlast Hfolder
    Hopen Hdump Hclose.
  unfold get_survey.
  rewrite (bind_ok get_self _ s s (self s)) by reflexivity.
  erewrite bind_ok by (unfold call; fold url hdr; rewrite Hget; reflexivity).
  rewrite (bind_lift_ok _ _ _ parsed Hparsed), (bind_lift_ok _ _ _ v Hv).
  rewrite Hpath. rewrite bind_assoc.
  erewrite bind_ok by reflexivity.
  simpl history. fold url hdr h1. rewrite Hisdir. simpl negb. cbv iota.
  rewrite !bind_assoc.
  erewrite bind_lift_ok by (unfold last_differs; rewrite Hlast; reflexivity).
  assert (Hsetup : forall q',
    project_name q' = project_name (self s) ->
    use_timestamps q' = use_timestamps (self s) ->
    setup_output_filename w (with_separator p c) survey_name "survey" "json"
      (mkState q' h1) = Some (Ok path, mkState q' h2)).
  { intros q' Hproject Hstamps. rewrite setup_output_filename_run.
    unfold instant_read. rewrite Hproject, Hstamps.
    change (with_separator p c ++ project_name (self s)) with folder.
    destruct (os_path_exists w h1 folder) eqn:Hexists.
    - unfold path, artifact_file, h2, after_mkdir. rewrite Hexists. reflexivity.
    - destruct Hfolder as [Hf|Hf]; [discriminate|]. rewrite Hf.
      unfold path, artifact_file, h2, after_mkdir. rewrite Hexists. reflexivity. }
  unfold with_separator in *. destruct (Ascii.eqb c slash); simpl negb; cbv iota.
  - erewrite bind_ok by reflexivity. rewrite ?bind_assoc.
    erewrite bind_ok by (apply Hsetup; reflexivity).
    erewrite bind_ok
      by (apply (write_json_to_disk_written w v path (mkState (self s) h2));
          assumption).
    rewrite (with_path_same _ _ Hpath). reflexivity.
  - rewrite !bind_assoc. erewrite bind_ok by reflexivity.
    erewrite bind_ok by reflexivity. rewrite ?bind_assoc.
    erewrite bind_ok by (apply Hsetup; reflexivity).
    erewrite bind_ok
      by (apply (write_json_to_disk_written w v path
                   (mkState (with_path (self s) (PathStr (p ++ "/"))) h2));
          assumption).
    reflexivity.
Qed.

(** C7.  [get_survey] issues one request, a [GET] to the base URL followed
    by [surveys/] and the survey token: whatever the answer, the rest of
    what it does is local (no further [GET], no [POST], no sleep).  When
    the body of the answer parses to a document with a [result] field, the
    method returns that field: at once when it is not to write to disk,
    and, when it is, after it has made the project folder if need be and
    written the field to the survey file, provided the output path names a
    directory and the file can be opened, written and closed.  The only
    other way it can end is an exception of the writing to disk. *)
Theorem get_survey_single_request
    (lib : Library) (w : World) (survey_token survey_name : string)
    (write_to_disk : bool) (s : state) :
  let url := base_url (self s) ++ "surveys/" ++ survey_token in
  let hdr := api_token_header (self s) in
  let h1 := (history s ++ [EvGet url hdr])%list in
  exists out s' evs,
    get_survey lib w survey_token survey_name write_to_disk s = Some (out, s')
    /\ history s' = (history s ++ EvGet url hdr :: evs)%list
    /\ Forall local_event evs
    /\ count_gets (EvGet url hdr :: evs) = 1%nat
    /\ forall resp parsed v,
         requests_get w (history s) url hdr = Ok resp ->
         json_loads lib (content resp) = Ok parsed ->
         getitem parsed "result" = Ok v ->
         (out = Ok v \/ exists e, out = Raise e)
         /\ (write_to_disk = false -> out = Ok v)
         /\ (forall p c,
               let folder := project_folder (self s) p c in
               let path := artifact_file w (self s) folder h1 survey_name "survey" "json" in
               let h2 := after_mkdir w folder h1 in
               write_to_disk = true ->
               path_to_output_files (self s) = PathStr p ->
               os_path_isdir w h1 (os_path_realpath w p) = true ->
               str_last p = Ok c ->
               (os_path_exists w h1 folder = true \/ os_mkdir w h1 folder = Ok tt) ->
               file_open w h2 path = Ok tt ->
               json_dump w (h2 ++ [EvOpen path]) v path = Ok tt ->
               file_close w
                 (h2 ++ [EvOpen path; EvDump v path;
                         EvPrint (os_path_abspath w path ++ " " ++ "written to disk")])
                 path = Ok tt ->
               out = Ok v
               /\ s' = mkState (with_path (self s) (PathStr (with_separator p c)))
                         (h2 ++ json_written w v path)).
Proof.
  intros url hdr h1.
  destruct (get_survey_trace lib w survey_token survey_name write_to_disk s)
    as (out & s' & evs & Hrun & Hh & Hall).
  exists out, s', evs.
  split; [exact Hrun|]. split; [exact Hh|]. split; [exact Hall|]. split.
  - simpl. f_equal. clear Hh. induction Hall as [|e evs He _ IH]; [reflexivity|].
    destruct e; simpl in *; try contradiction; exact IH.
  - intros resp parsed v Hget Hparsed Hv.
    split; [eapply get_survey_result; eassumption|].
    split; [eapply get_survey_result; eassumption|].
    intros p c folder path h2 Hwrite Hpath Hisdir Hlast Hfolder Hopen Hdump Hclose.
    subst write_to_disk.
    rewrite (get_survey_written lib w survey_token survey_name s resp parsed v p c
               Hget Hparsed Hv Hpath Hisdir Hlast Hfolder Hopen Hdump Hclose) in Hrun.
    inversion Hrun. split; reflexivity.
Qed.

Lemma get_survey_single_request_witness :
  (exists s',
     get_survey sample_library (sample_world (mkScenario 200 None false false))
       "SV_1" "Survey 1" false sample_state = Some (Ok sample_survey, s')
     /\ count_gets (history s') = 1%nat)
  /\ get_survey sample_library (sample_world (mkScenario 200 None false false))
       "SV_1" "Survey 1" true sample_state
     = Some (Ok sample_survey,
             mkState (with_path sample_client (PathStr "out/"))
               [EvGet (sample_base ++ "surveys/SV_1") (api_token_header sample_client);
                EvMkdir "out/Project 1";
                EvOpen "out/Project 1/20161104_Survey 1_survey.json";
                EvDump sample_survey "out/Project 1/20161104_Survey 1_survey.json";
                EvPrint "/home/user/out/Project 1/20161104_Survey 1_survey.json written to disk";
                EvClose "out/Project 1/20161104_Survey 1_survey.json"]).
Proof.
  split.
  - destruct (get_survey_single_request sample_library
                (sample_world (mkScenario 200 None false false))
                "SV_1" "Survey 1" false sample_state)
      as (out & s' & evs & Hrun & Hh & _ & Hcount & Hres).
    destruct (Hres (mkResponse 200 "survey") (JDict [("result", sample_survey)])
                sample_survey eq_refl eq_refl eq_refl) as (_ & Hout & _).
    exists s'. rewrite Hrun, (Hout eq_refl), Hh. split; [reflexivity | exact Hcount].
  - destruct (get_survey_single_request sample_library
                (sample_world (mkScenario 200 None false false))
                "SV_1" "Survey 1" true sample_state)
      as (out & s' & evs & Hrun & _ & _ & _ & Hres).
    destruct (Hres (mkResponse 200 "survey") (JDict [("result", sample_survey)])
                sample_survey eq_refl eq_refl eq_refl) as (_ & _ & Hwritten).
    destruct (Hwritten "out" "t"%char eq_refl eq_refl eq_refl eq_refl
                (or_intror eq_refl) eq_refl eq_refl eq_refl) as [Hout Hstate].
    rewrite Hrun, Hout, Hstate. reflexivity.
Defined.

(** C1.  When the submission succeeds, the polling loop ends on a status
    with [percentComplete == 100], and the file of that status is a zip
    archive, [get_responseexports] parses what [read] gives for the first
    name of the archive, whatever that name is, and returns the value of
    [responses] in it, paired with a file name.  Without writing to disk
    the file name is [" "].  With writing to disk, when the table can be
    built, the output path names a directory and feather writes the table,
    the file name is the path of the table.  When the survey is asked for
    too, the method returns the same as soon as [get_survey] returns.  The
    method always ends, and the only other way it can end is an exception
    of the writing to disk or of the survey download. *)
Theorem completed_export_returns_responses
    (lib : Library) (w : World)
    (fuel : nat) (survey_token survey_name : string)
    (write_to_disk and_get_survey : bool) (result_format : string)
    (max_wait_ms sleep_ms : Z) (kwargs : list (string * json)) (s s2 : state)
    (resp r : Response) (posted res status sres percent parsed v : json)
    (id file_url first data : string) (others : list string) (z : ZipFile) :
  let q := self s in
  let hdr := api_token_header q in
  let full_url := base_url q ++ "responseexports" in
  let form := JDict (export_form_fields survey_token result_format kwargs) in
  let h3 := (history s2 ++ [EvGet file_url hdr])%list in
  requests_post w (history s) full_url form hdr = Ok resp ->
  ok resp = true ->
  json_loads lib (content resp) = Ok posted ->
  getitem posted "result" = Ok res ->
  getitem res "id" = Ok (JStr id) ->
  poll lib w fuel (base_url q ++ "responseexports/" ++ id) hdr max_wait_ms sleep_ms 0 None
    (mkState q (history s ++ [EvPost full_url form hdr])) = Some (Ok (Some status), s2) ->
  getitem status "result" = Ok sres ->
  getitem sres "percentComplete" = Ok percent ->
  equals_100 percent = true ->
  getitem sres "file" = Ok (JStr file_url) ->
  requests_get w (history s2) file_url hdr = Ok r ->
  zipfile_ZipFile lib (content r) = Ok z ->
  NameToInfo_keys z = first :: others ->
  zip_read z first = Ok data ->
  json_loads lib data = Ok parsed ->
  getitem parsed "responses" = Ok v ->
  exists out s',
    get_responseexports lib w fuel survey_token survey_name write_to_disk and_get_survey
      result_format max_wait_ms sleep_ms kwargs s = Some (out, s')
    /\ ((exists filename, out = Ok (v, filename)) \/ exists e, out = Raise e)
    /\ (write_to_disk = false -> and_get_survey = false -> out = Ok (v, " "))
    /\ (forall df p c,
          let folder := project_folder q p c in
          let path := artifact_file w q folder h3 survey_name "responseexports" "feather" in
          let h4 := (after_mkdir w folder h3 ++ table_written w df path)%list in
          write_to_disk = true ->
          create_df_from_api_data lib (PJson v) = Ok df ->
          path_to_output_files q = PathStr p ->
          os_path_isdir w h3 (os_path_realpath w p) = true ->
          str_last p = Ok c ->
          (os_path_exists w h3 folder = true \/ os_mkdir w h3 folder = Ok tt) ->
          feather_write_dataframe w (after_mkdir w folder h3) df path = Ok tt ->
          (and_get_survey = false -> out = Ok (v, path) /\ s' = mkState q h4)
          /\ (forall survey s5,
                and_get_survey = true ->
                get_survey lib w survey_token survey_name true (mkState q h4)
                = Some (Ok survey, s5) ->
                out = Ok (v, path) /\ s' = s5))
    /\ (forall survey s5,
          write_to_disk = false -> and_get_survey = true ->
          get_survey lib w survey_token survey_name false
            (mkState q (h3 ++ [EvPrint ("Retrieved responseexports data for "
                                        ++ survey_name)]))
          = Some (Ok survey, s5) ->
          out = Ok (v, " ") /\ s' = s5).
Proof.
  intros q hdr full_url form h3 Hpost Hok Hposted Hres Hid Hpoll Hsres Hpercent H100 Hfile
    Hget Hzip Hkeys Hread Hparsed Hv.
  assert (Hself : self s2 = q).
  { exact (preserves_poll lib w _ _ _ _ fuel _ _ _ _ _ Hpoll). }
  assert (Hfetch :
    fetch_export lib w fuel "responseexports" resp max_wait_ms sleep_ms
      (mkState q (history s ++ [EvPost full_url form hdr]))
    = Some (Ok ("responseexports/", data), mkState q h3)).
  { eapply (get_responseexports_after_poll lib w); try eassumption.
    rewrite Hself. fold h3.
    rewrite (bind_lift_ok _ _ _ z Hzip). rewrite Hkeys.
    erewrite bind_ok by reflexivity.
    rewrite (bind_lift_ok _ _ _ data Hread). reflexivity. }
  unfold get_responseexports.
  rewrite (bind_ok get_self _ _ s q) by reflexivity.
  erewrite bind_ok by (unfold call; fold q hdr full_url form; rewrite Hpost; reflexivity).
  rewrite Hok. erewrite bind_ok by exact Hfetch. cbv beta iota.
  rewrite (bind_lift_ok _ _ _ parsed Hparsed), (bind_lift_ok _ _ _ v Hv).
  destruct (export_tail_emits lib w survey_token survey_name "responseexports/"
              write_to_disk and_get_survey v (mkState q h3))
    as (out & s' & _ & Hrun & _).
  exists out, s'. split; [exact Hrun|]. split; [|split; [|split]].
  - eapply then_ret_pair_yields. exact Hrun.
  - intros -> ->. cbv in Hrun. inversion Hrun. reflexivity.
  - intros df p c. cbv zeta.
    intros Hwrite Hdf Hpath Hisdir Hlast Hfolder Hfeather.
    subst write_to_disk. rewrite bind_assoc in Hrun.
    rewrite (bind_lift_ok _ _ _ df Hdf) in Hrun.
    erewrite bind_ok in Hrun
      by (apply (write_df_to_disk_written w df survey_name "responseexports/"
                   (mkState q h3) p c); assumption).
    split.
    + intros ->. erewrite bind_ok in Hrun by reflexivity.
      inversion Hrun. split; reflexivity.
    + intros survey s5 -> Hsurvey. rewrite bind_assoc in Hrun.
      erewrite bind_ok in Hrun by exact Hsurvey.
      erewrite bind_ok in Hrun by reflexivity.
      inversion Hrun. split; reflexivity.
  - intros survey s5 -> -> Hsurvey. rewrite bind_assoc in Hrun.
    erewrite bind_ok in Hrun by reflexivity.
    erewrite bind_ok in Hrun by reflexivity.
    rewrite bind_assoc in Hrun.
    erewrite bind_ok in Hrun by exact Hsurvey.
    erewrite bind_ok in Hrun by reflexivity.
    inversion Hrun. split; reflexivity.
Qed.

Lemma completed_export_returns_responses_witness :
  (exists s',
     get_responseexports sample_library
       (sample_world (mkScenario 200 (Some 2%nat) false false))
       10 "SV_1" "Survey 1" false false "json" 20000 1 [] sample_state
     = Some (Ok (sample_responses, " "), s'))
  /\ (exists s',
        get_responseexports sample_library
          (sample_world (mkScenario 200 (Some 2%nat) false false))
          10 "SV_1" "Survey 1" true false "json" 20000 1 [] sample_state
        = Some (Ok (sample_responses,
                    "out/Project 1/20161104_Survey 1_responseexports.feather"), s')).
Proof.
  split.
  - edestruct (completed_export_returns_responses sample_library
                 (sample_world (mkScenario 200 (Some 2%nat) false false))
                 10 "SV_1" "Survey 1" false false "json" 20000 1 [] sample_state)
      as (out & s' & Hrun & _ & Hout & _); [reflexivity .. |].
    exists s'. rewrite Hrun, (Hout eq_refl eq_refl). reflexivity.
  - edestruct (completed_export_returns_responses sample_library
                 (sample_world (mkScenario 200 (Some 2%nat) false false))
                 10 "SV_1" "Survey 1" true false "json" 20000 1 [] sample_state)
      as (out & s' & Hrun & _ & _ & Hwritten & _); [reflexivity .. |].
    destruct (Hwritten
                (mkDataFrame [LStr "q1"; LStr "q2"]
                   [[Val (JStr "a"); NaN];
                    [Val (JStr "b"); Val (JStr " ")];
                    [NaN; Val (JStr "c")]])
                "out" "t"%char eq_refl eq_refl eq_refl eq_refl eq_refl
                (or_intror eq_refl) eq_refl) as [Hout _].
    destruct (Hout eq_refl) as [Hvalue _].
    exists s'. rewrite Hrun, Hvalue. reflexivity.
Defined.
